(** * zomboi: the user-log handler ([users.py])

    A shallow embedding of [User] and [UserHandler] (the log-tail
    reconstruction of who is online, where and since when) together with
    the properties of the handler that its specification states.

    Python strings are modelled as [string] (lists of ASCII characters; a
    code above 127 stands for a character that is neither a space nor a
    digit),
    the [users] dict as a [gmap string User], naive [datetime] values as
    the number of microseconds elapsed since [datetime(1, 1, 1)], and the
    methods of the handler as computations in a state-and-exception monad
    over the handler's fields and the bot's observable outputs. *)

From Stdlib Require Import ZArith List Ascii String Lia Permutation Sorted.
From Stdlib Require Import DecimalString.
From stdpp Require Import base option list gmap strings.

Import ListNotations.
Local Open Scope string_scope.
Local Open Scope Z_scope.

(* ===================================================================== *)
(** ** Python string primitives *)
(* ===================================================================== *)

Module PyStr.

(** [str.isspace] on one ASCII character; also what [\s] matches. *)
Definition is_space (c : ascii) : bool :=
  let n := nat_of_ascii c in
  ((9 <=? n)%nat && (n <=? 13)%nat)
  || ((28 <=? n)%nat && (n <=? 32)%nat).

Definition is_digit (c : ascii) : bool :=
  let n := nat_of_ascii c in (48 <=? n)%nat && (n <=? 57)%nat.

Fixpoint lstrip (s : list ascii) : list ascii :=
  match s with
  | c :: s' => if is_space c then lstrip s' else s
  | [] => []
  end.

(** [s.strip()] *)
Definition strip (s : list ascii) : list ascii :=
  rev (lstrip (rev (lstrip s))).

(** [s[1:]] *)
Definition drop1 (s : list ascii) : list ascii := tl s.

(** [s.split(sep, 1)] for a one-character separator: the text before the
    first separator and the text after it, or [None] when the separator
    is absent (Python then returns a one-element list). *)
Fixpoint split1 (sep : ascii) (s : list ascii)
  : option (list ascii * list ascii) :=
  match s with
  | [] => None
  | c :: s' =>
      if Ascii.eqb c sep then Some ([], s')
      else match split1 sep s' with
           | Some (a, b) => Some (c :: a, b)
           | None => None
           end
  end.

Fixpoint starts_with (p s : list ascii) : bool :=
  match p, s with
  | [], _ => true
  | a :: p', b :: s' => Ascii.eqb a b && starts_with p' s'
  | _ :: _, [] => false
  end.

(** [p in s] *)
Fixpoint contains (p s : list ascii) : bool :=
  starts_with p s ||
  match s with
  | [] => false
  | _ :: s' => contains p s'
  end.

(** [int(s)] on a string of decimal digits. *)
Definition int_of_digits (s : list ascii) : Z :=
  fold_left (fun acc c => 10 * acc + (Z.of_nat (nat_of_ascii c) - 48)) s 0.

(** [str(n)] for a natural number. *)
Definition str_of_nat (n : nat) : string :=
  NilEmpty.string_of_uint (Nat.to_uint n).

End PyStr.

(* ===================================================================== *)
(** ** Regular expressions, as Python's [re] matches them *)
(* ===================================================================== *)

Module Re.

(** The fragment of the pattern language that the handler and
    [strptime] use.  Repetition is greedy and alternatives are tried
    from left to right, with backtracking. *)
Inductive regex : Type :=
| Chr (c : ascii)                  (* a literal character *)
| Any                              (* .   (no newline) *)
| Digit                            (* \d *)
| Space                            (* \s *)
| Range (lo hi : ascii)            (* [lo-hi] *)
| Seq (r1 r2 : regex)
| Alt (r1 r2 : regex)              (* r1|r2 *)
| Star (r : regex)                 (* r* *)
| Upto (n : nat) (r : regex)       (* r{0,n} *)
| Group (i : nat) (r : regex).     (* the i-th capturing group *)

Arguments Upto n%_nat r.
Arguments Group i%_nat r.

Definition Plus (r : regex) : regex := Seq r (Star r).

Fixpoint seq (rs : list regex) (last : regex) : regex :=
  match rs with
  | [] => last
  | r :: rs' => Seq r (seq rs' last)
  end.

Definition groups : Type := nat -> option (list ascii).
Definition no_groups : groups := fun _ => None.
Definition set_group (i : nat) (v : list ascii) (g : groups) : groups :=
  fun j => if Nat.eqb i j then Some v else g j.

Definition one (p : ascii -> bool) {A : Type} (s : list ascii) (g : groups)
    (k : list ascii -> groups -> option A) : option A :=
  match s with
  | c :: s' => if p c then k s' g else None
  | [] => None
  end.

Definition in_range (lo hi c : ascii) : bool :=
  (nat_of_ascii lo <=? nat_of_ascii c)%nat
  && (nat_of_ascii c <=? nat_of_ascii hi)%nat.

Definition newline : ascii := ascii_of_nat 10.

(** A backtracking matcher in continuation-passing style: [m r s g k]
    matches [r] at the front of [s] and hands the rest of the input and
    the groups to [k]; when [k] fails the next way of matching [r] is
    tried. *)
Fixpoint m {A : Type} (r : regex) (s : list ascii) (g : groups)
    (k : list ascii -> groups -> option A) {struct r} : option A :=
  match r with
  | Chr c => one (Ascii.eqb c) s g k
  | Any => one (fun c => negb (Ascii.eqb c newline)) s g k
  | Digit => one PyStr.is_digit s g k
  | Space => one PyStr.is_space s g k
  | Range lo hi => one (in_range lo hi) s g k
  | Seq r1 r2 => m r1 s g (fun s1 g1 => m r2 s1 g1 k)
  | Alt r1 r2 =>
      match m r1 s g k with
      | Some x => Some x
      | None => m r2 s g k
      end
  | Star r1 =>
      (fix loop (fuel : nat) (s0 : list ascii) (g0 : groups) : option A :=
         match fuel with
         | O => k s0 g0
         | S fuel' =>
             match m r1 s0 g0
                     (fun s1 g1 =>
                        if (length s1 <? length s0)%nat
                        then loop fuel' s1 g1 else None) with
             | Some x => Some x
             | None => k s0 g0
             end
         end) (length s) s g
  | Upto n r1 =>
      (fix loop (fuel : nat) (s0 : list ascii) (g0 : groups) : option A :=
         match fuel with
         | O => k s0 g0
         | S fuel' =>
             match m r1 s0 g0 (fun s1 g1 => loop fuel' s1 g1) with
             | Some x => Some x
             | None => k s0 g0
             end
         end) n s g
  | Group i r1 =>
      m r1 s g
        (fun s1 g1 =>
           k s1 (set_group i (firstn (length s - length s1) s) g1))
  end.

(** [re.match(r, s)]: the groups and the unmatched rest of [s]. *)
Definition rmatch (r : regex) (s : list ascii)
  : option (groups * list ascii) :=
  m r s no_groups (fun s' g => Some (g, s')).

(** [re.search(r, s)]: the leftmost position at which [r] matches. *)
Fixpoint search (r : regex) (s : list ascii) : option groups :=
  match rmatch r s with
  | Some (g, _) => Some g
  | None =>
      match s with
      | [] => None
      | _ :: s' => search r s'
      end
  end.

(** [matches.group(i)] as a [str]. *)
Definition group (g : groups) (i : nat) : string :=
  string_of_list_ascii (default [] (g i)).

End Re.

(* ===================================================================== *)
(** ** [datetime] *)
(* ===================================================================== *)

(** A naive [datetime] is represented by the number of microseconds
    since [datetime(1, 1, 1, 0, 0, 0, 0)]; Python compares two naive
    datetimes field by field, which is the order of these numbers. *)
Abbreviation datetime := Z (only parsing).

Module Datetime.

Definition is_leap (year : Z) : bool :=
  (year mod 4 =? 0) && (negb (year mod 100 =? 0) || (year mod 400 =? 0)).

Definition days_in_month (year month : Z) : Z :=
  if (month =? 2) && is_leap year then 29
  else nth (Z.to_nat month) [0; 31; 28; 31; 30; 31; 30; 31; 31; 30; 31; 30; 31] 0.

Definition days_before_year (year : Z) : Z :=
  let y := year - 1 in y * 365 + y / 4 - y / 100 + y / 400.

Definition days_before_month (year month : Z) : Z :=
  nth (Z.to_nat month) [0; 0; 31; 59; 90; 120; 151; 181; 212; 243; 273; 304; 334] 0
  + (if (2 <? month) && is_leap year then 1 else 0).

Definition ymd2ord (year month day : Z) : Z :=
  days_before_year year + days_before_month year month + day.

Definition between (lo x hi : Z) : bool := (lo <=? x) && (x <=? hi).

(** [datetime(year, month, day, hour, minute, second, microsecond)];
    [None] stands for the [ValueError] of a field out of range. *)
Definition make (year month day hour minute second us : Z)
  : option datetime :=
  if between 1 year 9999 && between 1 month 12
     && between 1 day (days_in_month year month)
     && between 0 hour 23 && between 0 minute 59 && between 0 second 59
     && between 0 us 999999
  then Some ((((ymd2ord year month day - 1) * 24 + hour) * 60 + minute)
               * 60 * 1000000 + second * 1000000 + us)
  else None.

(** [datetime(1, 1, 1)], the default of [User.lastSeen]. *)
Definition datetime_1_1_1 : datetime := 0.

(** The pattern [strptime] compiles ["%d-%m-%y %H:%M:%S.%f"] to; the
    groups are numbered d=1, m=2, y=3, H=4, M=5, S=6, f=7. *)
Definition strptime_regex : Re.regex :=
  let ch := Re.Chr in
  let rg (a b : string) :=
    match a, b with
    | String x _, String y _ => Re.Range x y
    | _, _ => Re.Any
    end in
  let c (a : string) :=
    match a with String x _ => Re.Chr x | _ => Re.Any end in
  let alts := fold_right Re.Alt in
  let d := alts (Re.Seq (c " ") (rg "1" "9"))
             [Re.Seq (c "3") (rg "0" "1"); Re.Seq (rg "1" "2") Re.Digit;
              Re.Seq (c "0") (rg "1" "9"); rg "1" "9"] in
  let mo := alts (rg "1" "9")
              [Re.Seq (c "1") (rg "0" "2"); Re.Seq (c "0") (rg "1" "9")] in
  let y := Re.Seq Re.Digit Re.Digit in
  let H := alts Re.Digit
             [Re.Seq (c "2") (rg "0" "3"); Re.Seq (rg "0" "1") Re.Digit] in
  let Mi := alts Re.Digit [Re.Seq (rg "0" "5") Re.Digit] in
  let S := alts Re.Digit
             [Re.Seq (c "6") (rg "0" "1"); Re.Seq (rg "0" "5") Re.Digit] in
  let f := Re.Seq (rg "0" "9") (Re.Upto 5 (rg "0" "9")) in
  Re.seq [Re.Group 1 d; c "-"; Re.Group 2 mo; c "-"; Re.Group 3 y;
          Re.Plus Re.Space;
          Re.Group 4 H; c ":"; Re.Group 5 Mi; c ":"; Re.Group 6 S; c "."]
         (Re.Group 7 f).

Definition int_group (g : Re.groups) (i : nat) : Z :=
  PyStr.int_of_digits (PyStr.strip (default [] (g i))).

(** [datetime.strptime(s, "%d-%m-%y %H:%M:%S.%f")]; [None] stands for
    its [ValueError] (no match, unconverted data, or an impossible
    date). *)
Definition strptime (s : list ascii) : option datetime :=
  match Re.rmatch strptime_regex s with
  | Some (g, []) =>
      let yy := int_group g 3 in
      let year := if yy <=? 68 then yy + 2000 else yy + 1900 in
      let f := default [] (g 7%nat) in
      let us := PyStr.int_of_digits
                  (f ++ repeat "0"%char (6 - length f)%nat) in
      make year (int_group g 2) (int_group g 1)
           (int_group g 4) (int_group g 5) (int_group g 6) us
  | _ => None
  end.

End Datetime.


(* ===================================================================== *)
(** ** The data model: [User], the handler's fields, the bot *)
(* ===================================================================== *)

(** One component of [User.lastLocation]: the default is the pair of
    integers [(0, 0)], an accepted event stores the two matched digit
    strings. *)
Inductive coord : Type :=
| CInt (z : Z)
| CStr (s : string).

(** [class User] *)
Record User : Type := mkUser {
  name : string;
  hoursAlive : Z;
  recordHoursAlive : Z;
  perks : gmap string string;
  online : bool;
  lastSeen : datetime;
  lastLocation : coord * coord;
  died : list datetime
}.

(** [User(name)] *)
Definition new_User (n : string) : User :=
  {| name := n; hoursAlive := 0; recordHoursAlive := 0; perks := ∅;
     online := false; lastSeen := Datetime.datetime_1_1_1;
     lastLocation := (CInt 0, CInt 0); died := [] |}.

(** The three assignments of an accepted event:
    [user.online = b; user.lastSeen = t; user.lastLocation = loc]. *)
Definition accept (b : bool) (t : datetime) (loc : coord * coord) (u : User)
  : User :=
  {| name := name u; hoursAlive := hoursAlive u;
     recordHoursAlive := recordHoursAlive u; perks := perks u;
     online := b; lastSeen := t; lastLocation := loc; died := died u |}.

Inductive level : Type := INFO | DEBUG.

(** What the handler does to the outside world, in order of occurrence. *)
Inductive effect : Type :=
| Log (l : level) (text : string)       (* self.bot.log.info / .debug *)
| Send (text : string)                  (* await self.bot.channel.send *)
| ChangePresence (text : string).       (* await self.bot.change_presence *)

(** The fields of [UserHandler] that its methods read and write, with the
    part of the bot they touch: whether [bot.channel] is set, and the
    effects performed so far (latest first). *)
Record UserHandler : Type := mkHandler {
  lastUpdateTimestamp : datetime;
  users : gmap string User;
  notifyDisconnect : bool;
  onlineCount : option nat;
  bot_channel : bool;
  effects : list effect
}.

Definition set_lastUpdateTimestamp (t : datetime) (h : UserHandler) :=
  {| lastUpdateTimestamp := t; users := users h;
     notifyDisconnect := notifyDisconnect h; onlineCount := onlineCount h;
     bot_channel := bot_channel h; effects := effects h |}.

Definition set_users (us : gmap string User) (h : UserHandler) :=
  {| lastUpdateTimestamp := lastUpdateTimestamp h; users := us;
     notifyDisconnect := notifyDisconnect h; onlineCount := onlineCount h;
     bot_channel := bot_channel h; effects := effects h |}.

Definition set_onlineCount (n : option nat) (h : UserHandler) :=
  {| lastUpdateTimestamp := lastUpdateTimestamp h; users := users h;
     notifyDisconnect := notifyDisconnect h; onlineCount := n;
     bot_channel := bot_channel h; effects := effects h |}.

Definition add_effect (e : effect) (h : UserHandler) :=
  {| lastUpdateTimestamp := lastUpdateTimestamp h; users := users h;
     notifyDisconnect := notifyDisconnect h; onlineCount := onlineCount h;
     bot_channel := bot_channel h; effects := e :: effects h |}.

(** The messages sent to the channel so far (latest first). *)
Definition sent (h : UserHandler) : list string :=
  omap (fun e => match e with Send t => Some t | _ => None end) (effects h).

(* ===================================================================== *)
(** ** Methods as state-and-exception computations *)
(* ===================================================================== *)

Inductive exn : Type := ValueError | AttributeError | KeyError.

Inductive result (A : Type) : Type :=
| Ok (a : A)
| Raise (e : exn).
Arguments Ok {A} a.
Arguments Raise {A} e.

(** A method body: it runs on the handler's state and either returns or
    raises; what it wrote before raising stays written. *)
Definition M (A : Type) : Type := UserHandler -> result A * UserHandler.

Definition ret {A} (a : A) : M A := fun h => (Ok a, h).
Definition raise {A} (e : exn) : M A := fun h => (Raise e, h).
Definition bind {A B} (c : M A) (f : A -> M B) : M B :=
  fun h => match c h with
           | (Ok a, h') => f a h'
           | (Raise e, h') => (Raise e, h')
           end.
Definition get {A} (f : UserHandler -> A) : M A := fun h => (Ok (f h), h).
Definition modify (f : UserHandler -> UserHandler) : M unit :=
  fun h => (Ok tt, f h).
Definition perform (e : effect) : M unit := modify (add_effect e).
Definition lift {A} (r : result A) : M A := fun h => (r, h).

Declare Scope py_scope.
Delimit Scope py_scope with py.
Notation "x ← c ; k" := (bind c (fun x => k))
  (at level 20, c at level 100, k at level 200, only parsing) : py_scope.
Notation "' p ← c ; k" := (bind c (fun x => let 'p := x in k))
  (at level 20, p pattern, c at level 100, k at level 200, only parsing)
  : py_scope.
Notation "c ;; k" := (bind c (fun _ => k))
  (at level 100, k at level 200, only parsing, right associativity)
  : py_scope.
Local Open Scope py_scope.

(** An [option] result whose [None] raises [e]. *)
Definition or_raise {A} (e : exn) (o : option A) : M A :=
  match o with Some a => ret a | None => raise e end.

Definition str (s : string) : list ascii := list_ascii_of_string s.

(** The double-quote character. *)
Definition dquote : ascii := "034"%char.

(** A name between double quotes, as the log prints it. *)
Definition quoted (n : string) : string :=
  String dquote n ++ String dquote EmptyString.

(** The disconnect pattern of [handleLog]: a quoted name captured
    greedily as group 1, any text, an opening parenthesis, then three
    comma-separated runs of digits of which the first two are groups 2
    and 3, and a closing parenthesis. *)
Definition re_disconnected : Re.regex :=
  Re.seq [Re.Chr dquote; Re.Group 1 (Re.Star Re.Any); Re.Chr dquote;
          Re.Star Re.Any; Re.Chr "(";
          Re.Group 2 (Re.Plus Re.Digit); Re.Chr ",";
          Re.Group 3 (Re.Plus Re.Digit); Re.Chr ",";
          Re.Plus Re.Digit]
         (Re.Chr ")").

(** The connect pattern of [handleLog]: as above, up to and including
    the second run of digits. *)
Definition re_connected : Re.regex :=
  Re.seq [Re.Chr dquote; Re.Group 1 (Re.Star Re.Any); Re.Chr dquote;
          Re.Star Re.Any; Re.Chr "(";
          Re.Group 2 (Re.Plus Re.Digit); Re.Chr ","]
         (Re.Group 3 (Re.Plus Re.Digit)).

(** [matches.group(i)]; [matches] is [None] when the search failed, and
    taking a group of it raises [AttributeError]. *)
Definition group (matches : option Re.groups) (i : nat) : M string :=
  g ← or_raise AttributeError matches;
  ret (Re.group g i).

(** [user.online = b; user.lastSeen = t; user.lastLocation = loc], where
    [user] is the object that [self.users] holds under the key [n]. *)
Definition assign (n : string) (user : User) (b : bool) (t : datetime)
    (loc : coord * coord) : M unit :=
  modify (fun h => set_users (<[n := accept b t loc user]> (users h)) h).

(** [getUser]: get a user from a name, creating it when it is absent. *)
Definition getUser (n : string) : M User :=
  us ← get users;
  (if decide (n ∈ dom us) then ret tt
   else modify (set_users (<[n := new_User n]> us))) ;;
  us' ← get users;
  or_raise KeyError (us' !! n).

(** [splitLine]: split a log line into a timestamp and the remaining
    message.  It reads and writes no field of the handler.  Unpacking the
    split of a line without a closing bracket raises [ValueError], and so
    does [strptime] on a timestamp that it rejects. *)
Definition splitLine (line : string) : result (datetime * string) :=
  match PyStr.split1 "]" (PyStr.drop1 (PyStr.strip (str line))) with
  | Some (timestampStr, message) =>
      match Datetime.strptime timestampStr with
      | Some timestamp => Ok (timestamp, string_of_list_ascii message)
      | None => Raise ValueError
      end
  | None => Raise ValueError
  end.

(** [handleLog]: parse the log message and store any useful info;
    returns a message string if relevant. *)
Definition handleLog (timestamp : datetime) (message : string)
  : M (option string) :=
  if PyStr.contains (str "disconnected") (str message) then
    let matches := Re.search re_disconnected (str message) in
    n ← group matches 1;
    user ← getUser n;
    (if lastSeen user <? timestamp then
       x ← group matches 2;
       y ← group matches 3;
       assign n user false timestamp (CStr x, CStr y)
     else ret tt) ;;
    w ← get lastUpdateTimestamp;
    if w <? timestamp then
      perform (Log INFO (name user ++ " disconnected")) ;;
      nd ← get notifyDisconnect;
      if (nd : bool)
      then ret (Some (":person_running: " ++ name user ++ " has left"))
      else ret None
    else ret None
  else if PyStr.contains (str "fully connected") (str message) then
    let matches := Re.search re_connected (str message) in
    n ← group matches 1;
    user ← getUser n;
    (if lastSeen user <? timestamp then
       x ← group matches 2;
       y ← group matches 3;
       assign n user true timestamp (CStr x, CStr y)
     else ret tt) ;;
    w ← get lastUpdateTimestamp;
    if w <? timestamp then
      perform (Log INFO (name user ++ " connected")) ;;
      ret None
    else ret None
  else
    (* Ignore but mirror log if it's new *)
    w ← get lastUpdateTimestamp;
    if w <? timestamp then
      perform (Log DEBUG ("Ignored: " ++ message)) ;;
      ret None
    else ret None.

(** A log file as the handler sees it: its modification time, which
    [loadHistory] sorts by, and its lines from first to last. *)
Record file : Type := mkFile {
  mtime : Z;
  lines : list string
}.

(** [FileReadBackwards(f)]: the lines of [f], last line first. *)
Definition FileReadBackwards (f : file) : list string := rev (lines f).

(** The [for line in f] loop of [update]; [newTimestamp] is the local
    variable of that name, and leaving the recursion is the [break]. *)
Fixpoint update_loop (f : list string) (newTimestamp : datetime)
  : M datetime :=
  match f with
  | [] => ret newTimestamp
  | line :: f' =>
      '(timestamp, message) ← lift (splitLine line);
      let newTimestamp :=
        if newTimestamp <? timestamp then timestamp else newTimestamp in
      w ← get lastUpdateTimestamp;
      if w <? timestamp then
        message ← handleLog timestamp message;
        channel ← get bot_channel;
        match message, (channel : bool) with
        | Some text, true => perform (Send text)
        | _, _ => ret tt
        end ;;
        update_loop f' newTimestamp
      else ret newTimestamp
  end.

(** [len([user for user in self.users if self.users[user].online])] *)
Definition count_online (us : gmap string User) : nat :=
  length (List.filter (fun kv => online (snd kv)) (map_to_list us)).

(** [update]: update from the log file anything since the last update.
    [files] is what [glob] returns for the active-file pattern. *)
Definition update (files : list file) : M unit :=
  match files with
  | f :: _ =>
      newTimestamp ← get lastUpdateTimestamp;
      newTimestamp ← update_loop (FileReadBackwards f) newTimestamp;
      modify (set_lastUpdateTimestamp newTimestamp)
  | [] => ret tt
  end ;;
  (* Also update the bot activity here *)
  us ← get users;
  let count := count_online us in
  previous ← get onlineCount;
  if decide (Some count ≠ previous) then
    let playerString :=
      if (count =? 0)%nat then "nobody"
      else PyStr.str_of_nat count ++ " survivors" in
    perform (ChangePresence ("PZ with " ++ playerString)) ;;
    modify (set_onlineCount (Some count))
  else ret tt.

(** [files.sort(key=os.path.getmtime)]: a stable sort by modification
    time. *)
Fixpoint insert_by_mtime (f : file) (fs : list file) : list file :=
  match fs with
  | [] => [f]
  | g :: fs' =>
      if mtime f <=? mtime g then f :: fs else g :: insert_by_mtime f fs'
  end.

Definition sort_by_mtime (fs : list file) : list file :=
  fold_right insert_by_mtime [] fs.

(** The [for line in f] loop of [loadHistory]; the value that
    [handleLog] returns is dropped. *)
Fixpoint history_lines (f : list string) : M unit :=
  match f with
  | [] => ret tt
  | line :: f' =>
      '(timestamp, message) ← lift (splitLine line);
      handleLog timestamp message ;;
      history_lines f'
  end.

(** The [for file in files] loop of [loadHistory]. *)
Fixpoint history_files (files : list file) : M unit :=
  match files with
  | [] => ret tt
  | f :: files' => history_lines (lines f) ;; history_files files'
  end.

(** [loadHistory]: go through all log files and load the info.  [files]
    is what the recursive [glob] returns. *)
Definition loadHistory (files : list file) : M unit :=
  perform (Log INFO "Loading user history...") ;;
  history_files (sort_by_mtime files) ;;
  perform (Log INFO "User history loaded").

(** The handler as [__init__] leaves it before the history is loaded:
    [now] is [datetime.now()], [DISCONNECTS] the environment variable of
    that name, [channel] whether the bot has a channel. *)
Definition new_UserHandler (now : datetime) (DISCONNECTS : option string)
    (channel : bool) : UserHandler :=
  {| lastUpdateTimestamp := now; users := ∅;
     notifyDisconnect := String.eqb (default "True" DISCONNECTS) "True";
     onlineCount := None; bot_channel := channel; effects := [] |}.

(** [__init__] *)
Definition init (now : datetime) (DISCONNECTS : option string)
    (channel : bool) (history : list file) : result unit * UserHandler :=
  (loadHistory history ;; modify (set_onlineCount None))
    (new_UserHandler now DISCONNECTS channel).

(* ===================================================================== *)
(** ** Views of the code used to state its properties *)
(* ===================================================================== *)

(** What [handleLog] makes of a message, read off its three branches: an
    event with the three groups of the search ([b] is [true] for a
    connect), a marker whose search found nothing, or any other text. *)
Inductive parsed : Type :=
| Event (b : bool) (n x y : string)
| Unmatched
| Other.

Definition classify (message : string) : parsed :=
  if PyStr.contains (str "disconnected") (str message) then
    match Re.search re_disconnected (str message) with
    | Some g => Event false (Re.group g 1) (Re.group g 2) (Re.group g 3)
    | None => Unmatched
    end
  else if PyStr.contains (str "fully connected") (str message) then
    match Re.search re_connected (str message) with
    | Some g => Event true (Re.group g 1) (Re.group g 2) (Re.group g 3)
    | None => Unmatched
    end
  else Other.

(** The guarded assignment of [handleLog] on one [User]. *)
Definition guarded (b : bool) (t : datetime) (loc : coord * coord)
    (u : User) : User :=
  if lastSeen u <? t then accept b t loc u else u.

(** The entity that [getUser n] returns on the store [us]. *)
Definition entity (n : string) (us : gmap string User) : User :=
  default (new_User n) (us !! n).

(** The store that [handleLog t message] leaves (see [handleLog_spec]). *)
Definition users_after (t : datetime) (p : parsed) (us : gmap string User)
  : gmap string User :=
  match p with
  | Event b n x y => <[n := guarded b t (CStr x, CStr y) (entity n us)]> us
  | _ => us
  end.

(** What [handleLog] logs for an event later than the watermark. *)
Definition event_log (b : bool) (u : User) : effect :=
  Log INFO (name u ++ (if b then " connected" else " disconnected")).

(** What [handleLog] returns for an event later than the watermark. *)
Definition event_message (b nd : bool) (u : User) : option string :=
  if b then None
  else if nd then Some (":person_running: " ++ name u ++ " has left")
  else None.

(** [handleLog] on each timestamped message of a list in turn, stopping
    at the first one that raises: what both loops of the handler do with
    the lines they have split. *)
Fixpoint handle_all (evs : list (datetime * string)) : M unit :=
  match evs with
  | [] => ret tt
  | (timestamp, message) :: evs' =>
      handleLog timestamp message ;; handle_all evs'
  end.

(** The store after a list of timestamped messages none of which
    raises. *)
Definition users_after_all (evs : list (datetime * string))
    (us : gmap string User) : gmap string User :=
  fold_left (fun us e => users_after (fst e) (classify (snd e)) us) evs us.

(** Chronological order: insertion sort by timestamp. *)
Fixpoint insert_chrono (e : datetime * string)
    (l : list (datetime * string)) : list (datetime * string) :=
  match l with
  | [] => [e]
  | e' :: l' =>
      if fst e <=? fst e' then e :: l else e' :: insert_chrono e l'
  end.

Definition chronological (l : list (datetime * string))
  : list (datetime * string) :=
  fold_right insert_chrono [] l.

(** The timestamp of a line, when [splitLine] returns. *)
Definition timestamp_of (line : string) : option datetime :=
  match splitLine line with
  | Ok (t, _) => Some t
  | Raise _ => None
  end.


(** The value of [newTimestamp] when the backward scan of [update] stops:
    [ts] are the timestamps in reading order, [w] the watermark. *)
Fixpoint scan (w : datetime) (ts : list datetime) (newTimestamp : datetime)
  : datetime :=
  match ts with
  | [] => newTimestamp
  | t :: ts' =>
      let newTimestamp := Z.max newTimestamp t in
      if w <? t then scan w ts' newTimestamp else newTimestamp
  end.

(** The second half of [update], from the comment on the bot activity
    to the end (see [update_unfold]). *)
Definition refresh_presence : M unit :=
  us ← get users;
  let count := count_online us in
  previous ← get onlineCount;
  if decide (Some count ≠ previous) then
    let playerString :=
      if (count =? 0)%nat then "nobody"
      else PyStr.str_of_nat count ++ " survivors" in
    perform (ChangePresence ("PZ with " ++ playerString)) ;;
    modify (set_onlineCount (Some count))
  else ret tt.

(** What [update] does with the message that [handleLog] returned. *)
Definition notify (message : option string) (h : UserHandler)
  : UserHandler :=
  match message with
  | Some text => if bot_channel h then add_effect (Send text) h else h
  | None => h
  end.

(** The two lines of the scenario of the specification. *)
Definition alice_connects : string :=
  "[01-01-24 10:00:00.000]" ++ quoted "Alice" ++ " fully connected (5,5,0)".

Definition alice_disconnects : string :=
  "[01-01-24 10:05:00.000]" ++ quoted "Alice" ++ " disconnected (6,6,0)".

(** [datetime(2024, 1, 1, 10, minute)] *)
Definition at_10h (minute : Z) : datetime :=
  default 0 (Datetime.make 2024 1 1 10 minute 0 0).

(** A line on which [splitLine] fails: no closing bracket after the first
    character of the stripped line, or a text before it that [strptime]
    rejects. *)
Definition malformed (line : string) : Prop :=
  match PyStr.split1 "]" (PyStr.drop1 (PyStr.strip (str line))) with
  | Some (timestampStr, _) => Datetime.strptime timestampStr = None
  | None => True
  end.

(** A line that the scan of [update] goes past: it splits, and its
    timestamp is later than the watermark [w]. *)
Definition later_than (w : datetime) (line : string) : Prop :=
  exists t, timestamp_of line = Some t /\ w < t.

(** A line that no branch of [handleLog] can extract an event from: it
    has the marker of a branch and the search of that branch fails. *)
Definition unmatched (message : string) : Prop :=
  (PyStr.contains (str "disconnected") (str message) = true
   /\ Re.search re_disconnected (str message) = None)
  \/ (PyStr.contains (str "disconnected") (str message) = false
      /\ PyStr.contains (str "fully connected") (str message) = true
      /\ Re.search re_connected (str message) = None).

(* ===================================================================== *)
(** ** Invariants and views used for the further properties *)
(* ===================================================================== *)

(** Every entity of [us] is still in [us'], unchanged or with a later
    [lastSeen]. *)
Definition advances (us us' : gmap string User) : Prop :=
  forall n u, us !! n = Some u ->
    exists u', us' !! n = Some u' /\ (u' = u \/ lastSeen u < lastSeen u').

(** Every entry is stored under its own name, and the fields that no
    method of the handler assigns hold the defaults of [User]. *)
Definition well_kept (us : gmap string User) : Prop :=
  forall n u, us !! n = Some u ->
    name u = n /\ hoursAlive u = 0 /\ recordHoursAlive u = 0
    /\ perks u = ∅ /\ died u = [].

(** The store already accounts for the message [p] at time [t]: its
    entity is present and was last seen at [t] or later. *)
Definition covered (t : datetime) (p : parsed) (us : gmap string User)
  : Prop :=
  match p with
  | Event _ n _ _ => exists u, us !! n = Some u /\ t <= lastSeen u
  | _ => True
  end.

(** A line of the active file that a cycle handles without raising: it
    splits into [e], is later than the watermark [w], and is not an
    event line that fails to match. *)
Definition handled (w : datetime) (line : string) (e : datetime * string)
  : Prop :=
  splitLine line = Ok e /\ w < fst e /\ classify (snd e) <> Unmatched.

(** The presence texts set so far (latest first). *)
Definition presences (h : UserHandler) : list string :=
  omap (fun e => match e with ChangePresence t => Some t | _ => None end)
       (effects h).

(** The text that [update] sets the presence to for [count] entities
    online. *)
Definition presence_text (count : nat) : string :=
  "PZ with " ++ (if (count =? 0)%nat then "nobody"
                 else PyStr.str_of_nat count ++ " survivors").

(** No entity of the store was last seen later than [w]. *)
Definition seen_by (w : datetime) (us : gmap string User) : Prop :=
  forall n u, us !! n = Some u -> lastSeen u <= w.

(** The numbers of the capturing groups of a pattern. *)
Fixpoint group_ids (r : Re.regex) : list nat :=
  match r with
  | Re.Seq r1 r2 | Re.Alt r1 r2 => group_ids r1 ++ group_ids r2
  | Re.Star r1 | Re.Upto _ r1 => group_ids r1
  | Re.Group i r1 => i :: group_ids r1
  | _ => []
  end.

(* ===================================================================== *)
(** ** [handleLog], branch by branch *)
(* ===================================================================== *)

Lemma set_users_same h : set_users (users h) h = h.
Proof. by destruct h. Qed.

Lemma bind_ok {A B} (c : M A) (f : A -> M B) h a h' :
  c h = (Ok a, h') -> bind c f h = f a h'.
Proof. intros E. unfold bind. by rewrite E. Qed.

Lemma bind_raise {A B} (c : M A) (f : A -> M B) h e h' :
  c h = (Raise e, h') -> bind c f h = (Raise e, h').
Proof. intros E. unfold bind. by rewrite E. Qed.

(** One step of a computation whose first action returns by evaluation. *)
Ltac run := erewrite bind_ok by reflexivity.

Lemma getUser_spec n h :
  getUser n h = (Ok (entity n (users h)),
                 set_users (<[n := entity n (users h)]> (users h)) h).
Proof.
  unfold getUser, entity, bind, get. simpl.
  destruct (decide (n ∈ dom (users h))) as [Hin | Hout]; simpl.
  - apply elem_of_dom in Hin as [u Hu]. rewrite Hu. simpl.
    by rewrite (insert_id _ _ _ Hu), set_users_same.
  - apply not_elem_of_dom in Hout. rewrite Hout. simpl.
    by rewrite lookup_insert_eq.
Qed.

Lemma handleLog_spec t message h :
  handleLog t message h =
  match classify message with
  | Unmatched => (Raise AttributeError, h)
  | Other =>
      (Ok None,
       if lastUpdateTimestamp h <? t
       then add_effect (Log DEBUG ("Ignored: " ++ message)) h else h)
  | Event b n x y =>
      let u := entity n (users h) in
      let h1 := set_users (users_after t (Event b n x y) (users h)) h in
      if lastUpdateTimestamp h <? t
      then (Ok (event_message b (notifyDisconnect h) u),
            add_effect (event_log b u) h1)
      else (Ok None, h1)
  end.
Proof.
  unfold handleLog, classify.
  destruct (PyStr.contains (str "disconnected") (str message)).
  - destruct (Re.search re_disconnected (str message)) as [g|]; [|done].
    run. rewrite (bind_ok _ _ _ _ _ (getUser_spec _ _)).
    unfold users_after, guarded.
    destruct (lastSeen _ <? t); repeat run; cbn;
      rewrite ?insert_insert_eq;
      destruct (lastUpdateTimestamp h <? t); cbn; try done;
      by destruct (notifyDisconnect h).
  - destruct (PyStr.contains (str "fully connected") (str message)).
    + destruct (Re.search re_connected (str message)) as [g|]; [|done].
      run. rewrite (bind_ok _ _ _ _ _ (getUser_spec _ _)).
      unfold users_after, guarded.
      destruct (lastSeen _ <? t); repeat run; cbn;
        rewrite ?insert_insert_eq;
        by destruct (lastUpdateTimestamp h <? t).
    + run. cbn. by destruct (lastUpdateTimestamp h <? t).
Qed.

Lemma handleLog_users t message h :
  users (snd (handleLog t message h))
  = users_after t (classify message) (users h).
Proof.
  rewrite handleLog_spec.
  destruct (classify message); cbn; try done;
    by destruct (lastUpdateTimestamp h <? t).
Qed.

(** [handleLog] writes no field but [users], and sends nothing. *)
Lemma handleLog_frame t message h :
  let h' := snd (handleLog t message h) in
  lastUpdateTimestamp h' = lastUpdateTimestamp h
  /\ notifyDisconnect h' = notifyDisconnect h
  /\ onlineCount h' = onlineCount h
  /\ bot_channel h' = bot_channel h
  /\ sent h' = sent h.
Proof.
  rewrite handleLog_spec.
  destruct (classify message); cbn; try done;
    by destruct (lastUpdateTimestamp h <? t).
Qed.

Lemma handleLog_returns t message h :
  classify message <> Unmatched ->
  exists r, fst (handleLog t message h) = Ok r.
Proof.
  rewrite handleLog_spec.
  destruct (classify message); cbn; try done; intros _;
    destruct (lastUpdateTimestamp h <? t); eauto.
Qed.

(* ===================================================================== *)
(** ** The guarded update: idempotent, and commutative across timestamps *)
(* ===================================================================== *)

Lemma entity_insert_eq n v (us : gmap string User) :
  entity n (<[n := v]> us) = v.
Proof. unfold entity. by rewrite lookup_insert_eq. Qed.

Lemma entity_insert_ne n n' v (us : gmap string User) :
  n' <> n -> entity n (<[n' := v]> us) = entity n us.
Proof. intros. unfold entity. by rewrite lookup_insert_ne. Qed.

Lemma guarded_idem b t loc u :
  guarded b t loc (guarded b t loc u) = guarded b t loc u.
Proof.
  unfold guarded. destruct (lastSeen u <? t) eqn:E; cbn; [|by rewrite E].
  by rewrite Z.ltb_irrefl.
Qed.

Lemma guarded_comm b1 t1 loc1 b2 t2 loc2 u :
  t1 <> t2 ->
  guarded b1 t1 loc1 (guarded b2 t2 loc2 u)
  = guarded b2 t2 loc2 (guarded b1 t1 loc1 u).
Proof.
  intros Hne. unfold guarded.
  destruct (Z.ltb_spec (lastSeen u) t1), (Z.ltb_spec (lastSeen u) t2); cbn;
    repeat match goal with
           | |- context [?a <? ?b] => destruct (Z.ltb_spec a b); cbn
           end; try reflexivity; lia.
Qed.

Lemma users_after_idem t p us :
  users_after t p (users_after t p us) = users_after t p us.
Proof.
  destruct p as [b n x y| |]; cbn; try done.
  by rewrite entity_insert_eq, guarded_idem, insert_insert_eq.
Qed.

Lemma users_after_comm t1 p1 t2 p2 us :
  t1 <> t2 ->
  users_after t1 p1 (users_after t2 p2 us)
  = users_after t2 p2 (users_after t1 p1 us).
Proof.
  intros Hne.
  destruct p1 as [b1 n1 x1 y1| |], p2 as [b2 n2 x2 y2| |]; cbn; try done.
  destruct (decide (n1 = n2)) as [->|Hn].
  - rewrite !entity_insert_eq, !insert_insert_eq.
    by rewrite (guarded_comm b1 t1 _ b2 t2 _ _ Hne).
  - rewrite !entity_insert_ne by congruence.
    by apply insert_insert_ne.
Qed.

Lemma handle_all_spec evs : forall h,
  Forall (fun e => classify (snd e) <> Unmatched) evs ->
  fst (handle_all evs h) = Ok tt
  /\ users (snd (handle_all evs h)) = users_after_all evs (users h).
Proof.
  induction evs as [|[t message] evs IH]; intros h Hall; [done|].
  apply Forall_cons in Hall as [Hm Hall].
  destruct (handleLog_returns t message h Hm) as [r Hr].
  cbn [handle_all]. unfold bind.
  pose proof (handleLog_users t message h) as Hu.
  destruct (handleLog t message h) as [r' h1]. cbn in Hr, Hu. subst r'.
  destruct (IH h1 Hall) as [-> ->]. by rewrite Hu.
Qed.

Lemma users_after_all_perm evs evs' :
  Permutation evs evs' ->
  NoDup (map fst evs) ->
  forall us, users_after_all evs us = users_after_all evs' us.
Proof.
  unfold users_after_all.
  induction 1 as [|e l l' _ IH|e1 e2 l|l1 l2 l3 H12 IH12 H23 IH23];
    intros Hnd us; cbn.
  - done.
  - apply IH. by apply NoDup_cons in Hnd as [_ ?].
  - f_equal. apply users_after_comm.
    cbn in Hnd. apply NoDup_cons in Hnd as [Hnotin _].
    intros Heq. apply Hnotin. rewrite Heq. apply list_elem_of_here.
  - rewrite IH12 by done. apply IH23.
    apply (Permutation_map fst) in H12 as Hp. by rewrite <- Hp.
Qed.

Lemma insert_chrono_perm e l : Permutation (e :: l) (insert_chrono e l).
Proof.
  induction l as [|e' l IH]; cbn; [done|].
  destruct (fst e <=? fst e'); [done|].
  rewrite perm_swap. by constructor.
Qed.

Lemma chronological_perm l : Permutation l (chronological l).
Proof.
  induction l as [|e l IH]; cbn; [done|].
  rewrite <- insert_chrono_perm. by constructor.
Qed.

Lemma insert_chrono_sorted e l :
  Sorted (fun a b => fst a <= fst b) l ->
  Sorted (fun a b => fst a <= fst b) (insert_chrono e l).
Proof.
  induction 1 as [|e' l Hs IH Hhd]; cbn.
  - by repeat constructor.
  - destruct (_ <=? _) eqn:E.
    + apply Z.leb_le in E. by repeat constructor.
    + apply Z.leb_gt in E. constructor; [done|].
      destruct Hhd as [|e'' l' Hle]; cbn.
      * constructor. lia.
      * destruct (_ <=? _); constructor; lia.
Qed.

Lemma chronological_sorted l :
  Sorted (fun a b => fst a <= fst b) (chronological l).
Proof.
  induction l; cbn; [constructor | by apply insert_chrono_sorted].
Qed.

(* ===================================================================== *)
(** ** Order independence and idempotence of the store *)
(* ===================================================================== *)

Lemma handle_all_perm h evs evs' :
  NoDup (map fst evs) ->
  Forall (fun e => classify (snd e) <> Unmatched) evs ->
  Permutation evs evs' ->
  fst (handle_all evs' h) = Ok tt
  /\ users (snd (handle_all evs' h)) = users (snd (handle_all evs h)).
Proof.
  intros Hnd Hall Hp.
  assert (Hall' : Forall (fun e => classify (snd e) <> Unmatched) evs')
    by (by rewrite <- Hp).
  destruct (handle_all_spec evs h Hall) as [_ ->].
  destruct (handle_all_spec evs' h Hall') as [-> ->].
  split; [done|]. symmetry. by apply users_after_all_perm.
Qed.

(** C1.  Timestamped connect and disconnect messages with pairwise
    distinct timestamps, none of which fails to match its pattern, leave
    the same store in whatever order [handleLog] receives them: the store
    that they leave in chronological order.  In particular a connect at
    time 10 followed by a disconnect at time 5 of the same, new entity
    leaves it online with [lastSeen] 10, and so does the reverse order. *)
Theorem C1_order_independence :
  (forall h evs evs',
      NoDup (map fst evs) ->
      Forall (fun e => classify (snd e) <> Unmatched) evs ->
      Permutation evs evs' ->
      fst (handle_all evs' h) = Ok tt
      /\ users (snd (handle_all evs' h))
         = users (snd (handle_all (chronological evs) h)))
  /\ (forall now env channel,
        let h := new_UserHandler now env channel in
        let c := (10, quoted "A" ++ " fully connected (1,2,0)") in
        let d := (5, quoted "A" ++ " disconnected (3,4,0)") in
        forall evs, evs = [c; d] \/ evs = [d; c] ->
        exists u, users (snd (handle_all evs h)) !! "A" = Some u
                  /\ online u = true /\ lastSeen u = 10).
Proof.
  split.
  - intros h evs evs' Hnd Hall Hp.
    destruct (handle_all_perm h evs evs' Hnd Hall Hp) as [-> ->].
    split; [done|]. symmetry.
    by apply handle_all_perm, chronological_perm.
  - intros now env channel h c d evs Hevs.
    assert (Hall : Forall (fun e => classify (snd e) <> Unmatched) evs).
    { destruct Hevs as [-> | ->]; repeat constructor; by vm_compute. }
    destruct (handle_all_spec evs h Hall) as [_ ->].
    destruct Hevs as [-> | ->]; vm_compute; eauto.
Qed.

Lemma C1_order_independence_witness :
  let c := (10, quoted "A" ++ " fully connected (1,2,0)") in
  let d := (5, quoted "B" ++ " disconnected (3,4,0)") in
  let e := (7, "server restarted") in
  let h := new_UserHandler 6 None true in
  fst (handle_all [c; d; e] h) = Ok tt
  /\ users (snd (handle_all [c; d; e] h))
     = users (snd (handle_all (chronological [e; c; d]) h)).
Proof.
  intros c d e h.
  apply (proj1 C1_order_independence h [e; c; d] [c; d; e]).
  - by apply (bool_decide_unpack (NoDup [7; 10; 5])).
  - repeat constructor; by vm_compute.
  - subst c d e. rewrite (perm_swap _ _ [_]).
    apply perm_skip, perm_swap.
Defined.

(** C2.  Handling the same timestamped message a second time leaves the
    store exactly as the first time left it, and the watermark with it:
    no entity's [online], [lastSeen] or [lastLocation] changes. *)
Theorem C2_idempotence t message h :
  let h1 := snd (handleLog t message h) in
  let h2 := snd (handleLog t message h1) in
  users h2 = users h1
  /\ lastUpdateTimestamp h2 = lastUpdateTimestamp h1.
Proof.
  cbn. split.
  - rewrite !handleLog_users. apply users_after_idem.
  - apply handleLog_frame.
Qed.

(* ===================================================================== *)
(** ** The update cycle *)
(* ===================================================================== *)

Lemma update_unfold files :
  update files
  = bind (match files with
          | f :: _ =>
              bind (get lastUpdateTimestamp)
                (fun w =>
                   bind (update_loop (FileReadBackwards f) w)
                     (fun t => modify (set_lastUpdateTimestamp t)))
          | [] => ret tt
          end)
      (fun _ => refresh_presence).
Proof. reflexivity. Qed.

Lemma refresh_presence_frame h :
  let r := refresh_presence h in
  fst r = Ok tt
  /\ users (snd r) = users h
  /\ lastUpdateTimestamp (snd r) = lastUpdateTimestamp h
  /\ sent (snd r) = sent h.
Proof.
  unfold refresh_presence, bind, get, perform, modify, ret. cbn.
  by destruct (decide _).
Qed.

Lemma max_if (a b : Z) : (if a <? b then b else a) = Z.max a b.
Proof. destruct (Z.ltb_spec a b); lia. Qed.

Lemma splitLine_timestamp line t :
  timestamp_of line = Some t <-> exists message, splitLine line = Ok (t, message).
Proof.
  unfold timestamp_of. destruct (splitLine line) as [[t' m]|e]; split.
  - intros [= ->]. eauto.
  - by intros [m' [= -> _]].
  - done.
  - by intros [? ?].
Qed.

(** One turn of the loop of [update] on a line that splits. *)
Lemma update_loop_step line f' nt h t message :
  splitLine line = Ok (t, message) ->
  update_loop (line :: f') nt h
  = if lastUpdateTimestamp h <? t
    then match handleLog t message h with
         | (Ok m, h1) => update_loop f' (Z.max nt t) (notify m h1)
         | (Raise e, h1) => (Raise e, h1)
         end
    else (Ok (Z.max nt t), h).
Proof.
  intros Hs. cbn [update_loop]. unfold lift, bind at 1. rewrite Hs.
  rewrite max_if. run.
  destruct (lastUpdateTimestamp h <? t); [|done].
  unfold bind at 1. destruct (handleLog t message h) as [[m|e] h1]; [|done].
  run. unfold notify.
  destruct m as [text|]; [destruct (bot_channel h1)|]; by run.
Qed.

(** One turn of the loop of [update] on a line that does not split. *)
Lemma update_loop_raise line f' nt h e :
  splitLine line = Raise e ->
  update_loop (line :: f') nt h = (Raise e, h).
Proof.
  intros Hs. cbn [update_loop]. unfold lift, bind at 1. by rewrite Hs.
Qed.

Lemma notify_frame m h :
  lastUpdateTimestamp (notify m h) = lastUpdateTimestamp h
  /\ users (notify m h) = users h.
Proof. destruct m; cbn; [by destruct (bot_channel h)|done]. Qed.


Lemma scan_ge w ts : forall nt, nt <= scan w ts nt.
Proof.
  induction ts as [|t ts IH]; intros nt; cbn; [lia|].
  destruct (w <? t); [|lia]. specialize (IH (Z.max nt t)). lia.
Qed.






Lemma Forall2_rev {A B} (P : A -> B -> Prop) l k :
  Forall2 P l k -> Forall2 P (rev l) (rev k).
Proof.
  induction 1; cbn; [constructor|].
  apply Forall2_app; [done|]. by repeat constructor.
Qed.

(** A scan that returns never moves the watermark field, and returns a
    timestamp no earlier than the one it started from. *)
Lemma update_loop_ok ls : forall nt h r h',
  update_loop ls nt h = (Ok r, h') ->
  lastUpdateTimestamp h' = lastUpdateTimestamp h /\ nt <= r.
Proof.
  induction ls as [|line ls IH]; intros nt h r h' Hrun.
  - injection Hrun as <- <-. split; [done|lia].
  - destruct (splitLine line) as [[t message]|e] eqn:Hs.
    + rewrite (update_loop_step _ _ _ _ _ _ Hs) in Hrun.
      destruct (lastUpdateTimestamp h <? t).
      * pose proof (handleLog_frame t message h) as (Hw & _).
        destruct (handleLog t message h) as [[m|e] h1]; [|done].
        cbn in Hw. apply IH in Hrun as [-> Hle].
        rewrite (proj1 (notify_frame m h1)), Hw. split; [done|lia].
      * injection Hrun as <- <-. split; [done|lia].
    + by rewrite (update_loop_raise _ _ _ _ _ Hs) in Hrun.
Qed.

(** A cycle that returns has run the scan of the first file to its end,
    stored what the scan returned, and refreshed the presence. *)
Lemma update_ok f rest h h' :
  update (f :: rest) h = (Ok tt, h') ->
  exists r h1,
    update_loop (FileReadBackwards f) (lastUpdateTimestamp h) h = (Ok r, h1)
    /\ h' = snd (refresh_presence (set_lastUpdateTimestamp r h1)).
Proof.
  rewrite update_unfold. unfold bind at 1. run. unfold bind at 1.
  destruct (update_loop _ _ h) as [[r|e] h1]; [|done].
  unfold modify. cbn beta iota. intros Hrun. exists r, h1. split; [done|]. by rewrite Hrun.
Qed.






(* ===================================================================== *)
(** ** No notification at or below the watermark *)
(* ===================================================================== *)

Lemma handleLog_stale t message h :
  t <= lastUpdateTimestamp h ->
  effects (snd (handleLog t message h)) = effects h
  /\ (fst (handleLog t message h) = Ok None
      \/ fst (handleLog t message h) = Raise AttributeError).
Proof.
  intros Hle. rewrite handleLog_spec.
  destruct (Z.ltb_spec (lastUpdateTimestamp h) t); [lia|].
  destruct (classify message); cbn; auto.
Qed.

Lemma refresh_presence_idem h :
  refresh_presence (snd (refresh_presence h))
  = (Ok tt, snd (refresh_presence h)).
Proof.
  unfold refresh_presence, bind, get, perform, modify, ret. cbn.
  destruct (decide (Some (count_online (users h)) ≠ onlineCount h))
    as [Hne|Heq]; cbn.
  - by rewrite decide_False by (by intros ?).
  - by rewrite decide_False by done.
Qed.

Lemma refresh_presence_watermark t h :
  refresh_presence (set_lastUpdateTimestamp t h)
  = (fst (refresh_presence h),
     set_lastUpdateTimestamp t (snd (refresh_presence h))).
Proof.
  unfold refresh_presence, bind, get, perform, modify, ret. cbn.
  by destruct (decide _).
Qed.

Lemma set_lastUpdateTimestamp_same h :
  set_lastUpdateTimestamp (lastUpdateTimestamp h) h = h.
Proof. by destruct h. Qed.

(** A cycle that returned, run again on the same files, changes nothing. *)
Lemma update_again files h h' :
  update files h = (Ok tt, h') -> update files h' = (Ok tt, h').
Proof.
  destruct files as [|f rest].
  - rewrite !update_unfold. unfold bind, ret. intros Hrun.
    assert (h' = snd (refresh_presence h)) as -> by (by rewrite Hrun).
    apply refresh_presence_idem.
  - intros Hrun. apply update_ok in Hrun as (r & h1 & Hloop & ->).
    rewrite refresh_presence_watermark. cbn [snd].
    set (h2 := snd (refresh_presence h1)).
    assert (Hagain :
              update_loop (FileReadBackwards f) r (set_lastUpdateTimestamp r h2)
              = (Ok r, set_lastUpdateTimestamp r h2)).
    { destruct (FileReadBackwards f) as [|line ls]; [done|].
      destruct (splitLine line) as [[t message]|e] eqn:Hs.
      - rewrite (update_loop_step _ _ _ _ _ _ Hs) in Hloop.
        rewrite (update_loop_step _ _ _ _ _ _ Hs). cbn [lastUpdateTimestamp set_lastUpdateTimestamp].
        assert (t <= r) as Htr.
        { destruct (Z.ltb_spec (lastUpdateTimestamp h) t).
          - destruct (handleLog t message h) as [[m|e] h3]; [|done].
            apply update_loop_ok in Hloop. lia.
          - injection Hloop as <- _. lia. }
        destruct (Z.ltb_spec r t); [lia|]. do 2 f_equal. lia.
      - by rewrite (update_loop_raise _ _ _ _ _ Hs) in Hloop. }
    rewrite update_unfold. unfold bind at 1. run.
    cbn [lastUpdateTimestamp set_lastUpdateTimestamp].
    unfold bind at 1. rewrite Hagain. unfold modify. cbn beta iota.
    replace (set_lastUpdateTimestamp r (set_lastUpdateTimestamp r h2))
      with (set_lastUpdateTimestamp r h2) by done.
    rewrite refresh_presence_watermark. subst h2.
    by rewrite refresh_presence_idem.
Qed.

(** C4.  A line whose timestamp is not later than the watermark produces
    no notification: [handleLog] returns no message for it and performs
    no effect; the loop of [update] stops at it with the handler as it
    was; and a cycle that has returned, run again over the same files,
    re-reads only such a line and leaves the handler, with the messages
    sent, unchanged. *)
Theorem C4_no_stale_notification :
  (forall t message h,
      t <= lastUpdateTimestamp h ->
      effects (snd (handleLog t message h)) = effects h
      /\ forall text, fst (handleLog t message h) <> Ok (Some text))
  /\ (forall line ls newTimestamp t message h,
        splitLine line = Ok (t, message) ->
        t <= lastUpdateTimestamp h ->
        update_loop (line :: ls) newTimestamp h
        = (Ok (Z.max newTimestamp t), h))
  /\ (forall files h h',
        update files h = (Ok tt, h') ->
        update files h' = (Ok tt, h')
        /\ sent (snd (update files h')) = sent h').
Proof.
  split; [|split].
  - intros t message h Hle.
    destruct (handleLog_stale t message h Hle) as [He [Hr | Hr]];
      (split; [done|]); intros text; by rewrite Hr.
  - intros line ls nt t message h Hs Hle.
    rewrite (update_loop_step _ _ _ _ _ _ Hs).
    by destruct (Z.ltb_spec (lastUpdateTimestamp h) t); [lia|].
  - intros files h h' Hrun.
    by rewrite (update_again files h h' Hrun).
Qed.

Lemma C4_no_stale_notification_witness :
  let f := mkFile 0 [alice_connects; alice_disconnects] in
  let h := new_UserHandler (at_10h 2) None true in
  let h' := snd (update [f] h) in
  sent h' = [":person_running: Alice has left"]
  /\ update_loop [alice_connects; alice_disconnects] (at_10h 2) h
     = (Ok (at_10h 2), h)
  /\ forall text, fst (handleLog (at_10h 0) "x disconnected" h) <> Ok (Some text).
Proof.
  intros f h h'. split; [|split].
  - pose proof (proj2 (proj2 C4_no_stale_notification) [f] h h') as Hc.
    destruct Hc as [_ Hsent]; [by vm_compute|].
    rewrite <- Hsent. by vm_compute.
  - rewrite (proj1 (proj2 C4_no_stale_notification) alice_connects
               [alice_disconnects] (at_10h 2) (at_10h 0)
               (quoted "Alice" ++ " fully connected (5,5,0)") h);
      by vm_compute.
  - apply (proj1 C4_no_stale_notification (at_10h 0) "x disconnected" h).
    by vm_compute.
Defined.

(* ===================================================================== *)
(** ** Lines that raise *)
(* ===================================================================== *)

Lemma malformed_splitLine line :
  malformed line <-> splitLine line = Raise ValueError.
Proof.
  unfold malformed, splitLine.
  destruct (PyStr.split1 _ _) as [[timestampStr message]|]; [|done].
  destruct (Datetime.strptime timestampStr); split; done.
Qed.

Lemma splitLine_raises line e : splitLine line = Raise e -> e = ValueError.
Proof.
  unfold splitLine.
  destruct (PyStr.split1 _ _) as [[timestampStr message]|]; [|congruence].
  destruct (Datetime.strptime timestampStr); congruence.
Qed.

Lemma unmatched_classify message :
  unmatched message <-> classify message = Unmatched.
Proof.
  unfold unmatched, classify.
  destruct (PyStr.contains (str "disconnected") (str message)),
    (Re.search re_disconnected (str message)),
    (PyStr.contains (str "fully connected") (str message)),
    (Re.search re_connected (str message)); intuition congruence.
Qed.

Lemma history_lines_step line ls h :
  history_lines (line :: ls) h
  = match splitLine line with
    | Ok (t, message) =>
        match handleLog t message h with
        | (Ok _, h1) => history_lines ls h1
        | (Raise e, h1) => (Raise e, h1)
        end
    | Raise e => (Raise e, h)
    end.
Proof.
  cbn [history_lines]. unfold lift, bind at 1.
  destruct (splitLine line) as [[t message]|e]; [|done].
  unfold bind at 1. by destruct (handleLog t message h) as [[m|e] h1].
Qed.

(** The lines of a historical file up to the first line that raises. *)
Lemma history_lines_app_raise bad e post pre : forall h h1,
  splitLine bad = Raise e ->
  history_lines pre h = (Ok tt, h1) ->
  history_lines (pre ++ bad :: post) h = (Raise e, h1).
Proof.
  induction pre as [|line pre IH]; intros h h1 Hbad Hpre.
  - injection Hpre as <-. cbn [app]. rewrite history_lines_step.
    by rewrite Hbad.
  - cbn [app]. rewrite history_lines_step in Hpre |- *.
    destruct (splitLine line) as [[t message]|e']; [|done].
    destruct (handleLog t message h) as [[m|e'] h2]; [|done].
    by apply IH.
Qed.

(** The lines of the active file, last first, up to the first line that
    raises. *)
Lemma update_loop_app_raise bad e tail ls : forall nt h r h1,
  splitLine bad = Raise e ->
  Forall (later_than (lastUpdateTimestamp h)) ls ->
  update_loop ls nt h = (Ok r, h1) ->
  update_loop (ls ++ bad :: tail) nt h = (Raise e, h1).
Proof.
  induction ls as [|line ls IH]; intros nt h r h1 Hbad Hnew Hrun.
  - injection Hrun as _ <-. by apply update_loop_raise.
  - apply Forall_cons in Hnew as [(t & Ht & Hlt) Hnew].
    apply splitLine_timestamp in Ht as [message Hs]. cbn [app].
    rewrite (update_loop_step _ _ _ _ _ _ Hs) in Hrun.
    rewrite (update_loop_step _ _ _ _ _ _ Hs).
    destruct (Z.ltb_spec (lastUpdateTimestamp h) t); [|lia].
    pose proof (handleLog_frame t message h) as (Hw & _).
    destruct (handleLog t message h) as [[m|e'] h2]; [|done].
    cbn in Hw. eapply IH; [done| |done].
    by rewrite (proj1 (notify_frame m h2)), Hw.
Qed.

(** C5 (as amended).  A malformed line makes [splitLine] raise
    [ValueError], and neither batch loop catches it.  [loadHistory]
    raises at that line with the lines before it handled and the lines
    after it, and the files after it, not read.  [update], which reads
    from the end, raises at that line with the lines after it handled
    and the lines before it not read; the watermark is not advanced. *)
Theorem C5_malformed_line_aborts bad :
  malformed bad ->
  splitLine bad = Raise ValueError
  /\ (forall pre post h h1,
        history_lines pre h = (Ok tt, h1) ->
        history_lines (pre ++ bad :: post) h = (Raise ValueError, h1))
  /\ (forall f files pre post h h1,
        lines f = (pre ++ bad :: post)%list ->
        history_lines pre h = (Ok tt, h1) ->
        history_files (f :: files) h = (Raise ValueError, h1))
  /\ (forall f rest pre post h r h1,
        lines f = (pre ++ bad :: post)%list ->
        Forall (later_than (lastUpdateTimestamp h)) post ->
        update_loop (rev post) (lastUpdateTimestamp h) h = (Ok r, h1) ->
        update (f :: rest) h = (Raise ValueError, h1)
        /\ lastUpdateTimestamp h1 = lastUpdateTimestamp h).
Proof.
  intros Hbad%malformed_splitLine. split; [done|]. split; [|split].
  - intros pre post h h1 Hpre. by apply history_lines_app_raise.
  - intros f files pre post h h1 Hf Hpre. cbn [history_files].
    apply bind_raise. rewrite Hf. by apply history_lines_app_raise.
  - intros f rest pre post h r h1 Hf Hnew Hrun. split.
    + rewrite update_unfold. apply bind_raise. run. apply bind_raise.
      unfold FileReadBackwards. rewrite Hf, rev_app_distr. cbn [rev].
      rewrite <- app_assoc. cbn [app].
      eapply update_loop_app_raise; [done| |done].
      by apply List.Forall_rev.
    + by apply update_loop_ok in Hrun as [-> _].
Qed.

Lemma C5_malformed_line_aborts_witness :
  let bad := "[01-01-24 10:03:00]no fraction of a second" in
  let f := mkFile 0 [alice_connects; bad; alice_disconnects] in
  let h := new_UserHandler (at_10h 2) None true in
  fst (update [f] h) = Raise ValueError
  /\ lastUpdateTimestamp (snd (update [f] h)) = at_10h 2
  /\ sent (snd (update [f] h)) = [":person_running: Alice has left"]
  /\ fst (history_files [f] h) = Raise ValueError
  /\ (online <$> users (snd (history_files [f] h)) !! "Alice") = Some true.
Proof.
  intros bad f h.
  assert (Hbad : malformed bad) by (by vm_compute).
  destruct (C5_malformed_line_aborts bad Hbad) as (_ & _ & Hhist & Hupd).
  destruct (Hupd f [] [alice_connects] [alice_disconnects] h (at_10h 5)
              (snd (update_loop [alice_disconnects] (at_10h 2) h)))
    as [Hu Hw].
  { done. }
  { repeat constructor. exists (at_10h 5). by vm_compute. }
  { by vm_compute. }
  rewrite Hu.
  rewrite (Hhist f [] [alice_connects] [alice_disconnects] h
             (snd (history_lines [alice_connects] h)));
    [by vm_compute | done | by vm_compute].
Defined.

(** C5 as stated fails: a line without a closing bracket ends the batch.
    In [loadHistory] the line after it is never handled, although alone
    it creates Alice; in [update] the line before it is never handled and
    the cycle raises. *)
Lemma C5_counterexample :
  let bad := "no bracket at all" in
  let h := new_UserHandler 0 None true in
  let with_bad := loadHistory [mkFile 0 [bad; alice_connects]] h in
  let without := loadHistory [mkFile 0 [alice_connects]] h in
  fst with_bad = Raise ValueError
  /\ users (snd with_bad) !! "Alice" = None
  /\ fst without = Ok tt
  /\ (online <$> users (snd without) !! "Alice") = Some true
  /\ fst (update [mkFile 0 [alice_connects; bad]] h) = Raise ValueError
  /\ users (snd (update [mkFile 0 [alice_connects; bad]] h)) !! "Alice" = None
  /\ (online <$> users (snd (update [mkFile 0 [alice_connects]] h)) !! "Alice")
     = Some true.
Proof. by vm_compute. Qed.

(** C6 (as amended).  On a message that has the marker of a branch of
    [handleLog] and does not match the pattern of that branch,
    [handleLog] raises [AttributeError] to its caller; it has then
    written nothing: no entity is created or changed and nothing is
    logged.  Both loops let the exception through. *)
Theorem C6_unmatched_event_raises message :
  unmatched message ->
  (forall t h, handleLog t message h = (Raise AttributeError, h))
  /\ (forall line t ls h,
        splitLine line = Ok (t, message) ->
        history_lines (line :: ls) h = (Raise AttributeError, h))
  /\ (forall line t ls newTimestamp h,
        splitLine line = Ok (t, message) ->
        lastUpdateTimestamp h < t ->
        update_loop (line :: ls) newTimestamp h = (Raise AttributeError, h)).
Proof.
  intros Hm%unmatched_classify.
  assert (Hraise : forall t h, handleLog t message h = (Raise AttributeError, h)).
  { intros t h. rewrite handleLog_spec. by rewrite Hm. }
  split; [done|]. split.
  - intros line t ls h Hs. rewrite history_lines_step, Hs. by rewrite Hraise.
  - intros line t ls nt h Hs Hlt.
    rewrite (update_loop_step _ _ _ _ _ _ Hs), Hraise.
    by destruct (Z.ltb_spec (lastUpdateTimestamp h) t); [|lia].
Qed.

Lemma C6_unmatched_event_raises_witness :
  let h := new_UserHandler 0 None true in
  handleLog (at_10h 0) "Bob disconnected" h = (Raise AttributeError, h)
  /\ history_lines ["[01-01-24 10:00:00.000]Bob fully connected"; alice_connects] h
     = (Raise AttributeError, h).
Proof.
  intros h. split.
  - apply (proj1 (C6_unmatched_event_raises "Bob disconnected"
                    ltac:(left; by vm_compute))).
  - apply (proj1 (proj2 (C6_unmatched_event_raises "Bob fully connected"
                           ltac:(right; by vm_compute)))
             _ (at_10h 0)).
    by vm_compute.
Defined.

(** C6 as stated fails: a disconnect line without a quoted name and
    coordinates is not skipped; [handleLog] raises, and so does the cycle
    that reads it, before the watermark is stored. *)
Lemma C6_counterexample :
  let h := new_UserHandler 0 None true in
  let line := "[01-01-24 10:00:00.000]Bob disconnected" in
  handleLog (at_10h 0) "Bob disconnected" h = (Raise AttributeError, h)
  /\ update [mkFile 0 [line]] h = (Raise AttributeError, h)
  /\ fst (loadHistory [mkFile 0 [line; alice_connects]] h)
     = Raise AttributeError.
Proof. by vm_compute. Qed.

(* ===================================================================== *)
(** ** History replay *)
(* ===================================================================== *)

Lemma users_after_dom t p (us : gmap string User) n :
  is_Some (us !! n) -> is_Some (users_after t p us !! n).
Proof.
  destruct p as [b n' x y| |]; cbn; try done.
  intros Hn. destruct (decide (n' = n)) as [->|Hne].
  - rewrite lookup_insert_eq. eauto.
  - by rewrite lookup_insert_ne.
Qed.

Lemma users_after_event t b n x y (us : gmap string User) :
  is_Some (users_after t (Event b n x y) us !! n).
Proof. cbn. rewrite lookup_insert_eq. eauto. Qed.

(** The lines of one historical file: the watermark stays, nothing is
    sent, no entity disappears, and when the loop returns every event
    line has its entity in the store. *)
Lemma history_lines_spec ls : forall h,
  let r := history_lines ls h in
  lastUpdateTimestamp (snd r) = lastUpdateTimestamp h
  /\ sent (snd r) = sent h
  /\ (forall n, is_Some (users h !! n) -> is_Some (users (snd r) !! n))
  /\ (fst r = Ok tt ->
      forall line t message b n x y,
        In line ls ->
        splitLine line = Ok (t, message) ->
        classify message = Event b n x y ->
        is_Some (users (snd r) !! n)).
Proof.
  induction ls as [|line ls IH]; intros h; [by cbn|].
  cbn zeta. rewrite history_lines_step.
  destruct (splitLine line) as [[t message]|e] eqn:Hs; [|by cbn].
  pose proof (handleLog_frame t message h) as (Hw & _ & _ & _ & Hsent).
  pose proof (handleLog_users t message h) as Hu.
  destruct (handleLog t message h) as [[m|e] h1]; cbn in Hw, Hsent, Hu.
  - destruct (IH h1) as (IHw & IHs & IHdom & IHev).
    rewrite IHw, IHs, Hw, Hsent. repeat split.
    + intros n Hn. apply IHdom. rewrite Hu. by apply users_after_dom.
    + intros Hok line' t' message' b n x y [<-|Hin] Hs' Hc.
      * rewrite Hs in Hs'. injection Hs' as <- <-.
        apply IHdom. rewrite Hu, Hc. apply users_after_event.
      * by eapply IHev.
  - cbn. rewrite Hw, Hsent. repeat split; [|done].
    intros n Hn. rewrite Hu. by apply users_after_dom.
Qed.

Lemma history_files_spec files : forall h,
  let r := history_files files h in
  lastUpdateTimestamp (snd r) = lastUpdateTimestamp h
  /\ sent (snd r) = sent h
  /\ (forall n, is_Some (users h !! n) -> is_Some (users (snd r) !! n))
  /\ (fst r = Ok tt ->
      forall f line t message b n x y,
        In f files -> In line (lines f) ->
        splitLine line = Ok (t, message) ->
        classify message = Event b n x y ->
        is_Some (users (snd r) !! n)).
Proof.
  induction files as [|f files IH]; intros h; [by cbn|].
  cbn zeta. cbn [history_files]. unfold bind.
  pose proof (history_lines_spec (lines f) h) as (Hw & Hsent & Hdom & Hev).
  destruct (history_lines (lines f) h) as [[[]|e] h1];
    cbn in Hw, Hsent, Hdom, Hev.
  - destruct (IH h1) as (IHw & IHs & IHdom & IHev).
    rewrite IHw, IHs, Hw, Hsent. repeat split.
    + intros n Hn. by apply IHdom, Hdom.
    + intros Hok f' line t message b n x y [<-|Hin] Hl Hs Hc.
      * apply IHdom. by eapply Hev.
      * by eapply IHev.
  - cbn. by repeat split.
Qed.

Lemma insert_by_mtime_In f g fs :
  In g (insert_by_mtime f fs) <-> g = f \/ In g fs.
Proof.
  induction fs as [|f' fs IH]; cbn; [intuition|].
  destruct (mtime f <=? mtime f'); cbn; [intuition|].
  rewrite IH. intuition.
Qed.

Lemma sort_by_mtime_In g fs : In g (sort_by_mtime fs) <-> In g fs.
Proof.
  induction fs as [|f fs IH]; cbn; [done|].
  rewrite insert_by_mtime_In, IH. intuition.
Qed.


(* ===================================================================== *)
(** ** The scenario, the default entity, the choice of file *)
(* ===================================================================== *)

(** The store after the lines of a historical file that all split and
    none of which raises in [handleLog]. *)
Lemma history_lines_users ls evs :
  Forall2 (fun line e => splitLine line = Ok e) ls evs ->
  Forall (fun e => classify (snd e) <> Unmatched) evs ->
  forall h,
    fst (history_lines ls h) = Ok tt
    /\ users (snd (history_lines ls h)) = users_after_all evs (users h).
Proof.
  induction 1 as [|line [t message] ls evs Hs _ IH]; intros Hall h; [done|].
  apply Forall_cons in Hall as [Hm Hall]. cbn in Hm.
  rewrite history_lines_step, Hs.
  destruct (handleLog_returns t message h Hm) as [r Hr].
  pose proof (handleLog_users t message h) as Hu.
  destruct (handleLog t message h) as [r' h1]. cbn in Hr, Hu. subst r'.
  destruct (IH Hall h1) as [-> ->]. by rewrite Hu.
Qed.

Lemma loadHistory_single f evs h :
  Forall2 (fun line e => splitLine line = Ok e) (lines f) evs ->
  Forall (fun e => classify (snd e) <> Unmatched) evs ->
  fst (loadHistory [f] h) = Ok tt
  /\ users (snd (loadHistory [f] h)) = users_after_all evs (users h).
Proof.
  intros Hs Hall. unfold loadHistory. run.
  cbn [sort_by_mtime fold_right insert_by_mtime history_files].
  set (h0 := add_effect _ h).
  destruct (history_lines_users _ _ Hs Hall h0) as [Hr Hu].
  unfold bind, ret, perform, modify.
  destruct (history_lines (lines f) h0) as [r h1]. cbn in Hr, Hu.
  subst r. by cbn.
Qed.

(** C8 (as amended).  After the connect line at 10:00 and then the
    disconnect line at 10:05 of the scenario, Alice is offline, her
    [lastSeen] is [datetime(2024, 1, 1, 10, 5)] and her [lastLocation]
    is the pair of the strings of digits that the pattern matched, the
    one-character strings 6 and 6, not a pair of numbers: when the two
    lines are a historical
    file, whatever the clock says at start, and when they are the
    active file read by a cycle whose watermark is earlier than both
    (the cycle reads them last first). *)
Theorem C8_scenario :
  let expected :=
    accept false (at_10h 5) (CStr "6", CStr "6") (new_User "Alice") in
  let f := mkFile 0 [alice_connects; alice_disconnects] in
  Datetime.make 2024 1 1 10 5 0 0 = Some (at_10h 5)
  /\ (online expected = false
      /\ lastLocation expected = (CStr "6", CStr "6")
      /\ lastSeen expected = at_10h 5)
  /\ (forall now env channel,
        let r := loadHistory [f] (new_UserHandler now env channel) in
        fst r = Ok tt /\ users (snd r) !! "Alice" = Some expected)
  /\ (forall env channel,
        let r := update [f] (new_UserHandler (at_10h 0 - 1) env channel) in
        fst r = Ok tt /\ users (snd r) !! "Alice" = Some expected).
Proof.
  cbn zeta. split; [by vm_compute|]. split; [by vm_compute|]. split.
  - intros now env channel.
    destruct (loadHistory_single
                (mkFile 0 [alice_connects; alice_disconnects])
                [(at_10h 0, quoted "Alice" ++ " fully connected (5,5,0)");
                 (at_10h 5, quoted "Alice" ++ " disconnected (6,6,0)")]
                (new_UserHandler now env channel)) as [-> ->].
    + repeat constructor; by vm_compute.
    + repeat constructor; by vm_compute.
    + split; [done|]. by vm_compute.
  - intros env channel. unfold new_UserHandler.
    generalize (String.eqb (default "True" env) "True").
    intros nd. destruct nd, channel; by vm_compute.
Qed.

Lemma make_not_before_1_1_1 year month day hour minute second us t :
  Datetime.make year month day hour minute second us = Some t ->
  Datetime.datetime_1_1_1 <= t.
Proof.
  unfold Datetime.make, Datetime.between, Datetime.datetime_1_1_1.
  destruct (_ && _) eqn:E; [|done]. intros [= <-].
  repeat match goal with
         | H : _ && _ = true |- _ => apply andb_prop in H as [? ?]
         | H : (_ <=? _) = true |- _ => apply Z.leb_le in H
         end.
  assert (0 <= Datetime.days_before_year year).
  { unfold Datetime.days_before_year.
    pose proof (Z.div_le_upper_bound (year - 1) 100 (year - 1)).
    pose proof (Z.div_pos (year - 1) 4). pose proof (Z.div_pos (year - 1) 400).
    nia. }
  assert (0 <= Datetime.days_before_month year month).
  { unfold Datetime.days_before_month.
    assert (0 <= nth (Z.to_nat month)
                    [0; 0; 31; 59; 90; 120; 151; 181; 212; 243; 273; 304; 334] 0).
    { generalize (Z.to_nat month). intros k.
      do 13 (destruct k as [|k]; [by vm_compute|]).
      by destruct k; vm_compute. }
    destruct (_ && _); lia. }
  unfold Datetime.ymd2ord. nia.
Qed.

(** C9.  A connect or disconnect message whose quoted name is not in the
    store makes [getUser] insert the default entry for that name
    (offline, [lastSeen] the least [datetime], location the integers 0
    and 0); after [handleLog] the name is in the store, with the event
    accepted when its timestamp is later than that least [datetime] and
    with the default entry untouched when it is not. *)
Theorem C9_default_entry t message b n x y h :
  classify message = Event b n x y ->
  users h !! n = None ->
  (online (new_User n) = false
   /\ lastSeen (new_User n) = Datetime.datetime_1_1_1
   /\ lastLocation (new_User n) = (CInt 0, CInt 0)
   /\ forall year month day hour minute second us t',
        Datetime.make year month day hour minute second us = Some t' ->
        lastSeen (new_User n) <= t')
  /\ getUser n h
     = (Ok (new_User n), set_users (<[n := new_User n]> (users h)) h)
  /\ (exists r, fst (handleLog t message h) = Ok r)
  /\ users (snd (handleLog t message h)) !! n
     = Some (if Datetime.datetime_1_1_1 <? t
             then accept b t (CStr x, CStr y) (new_User n)
             else new_User n)
  /\ (t <= Datetime.datetime_1_1_1 ->
      users (snd (handleLog t message h)) = <[n := new_User n]> (users h)).
Proof.
  intros Hc Hn. split; [|split; [|split; [|split]]].
  - repeat split. intros. by eapply make_not_before_1_1_1.
  - rewrite getUser_spec. unfold entity. by rewrite Hn.
  - apply handleLog_returns. by rewrite Hc.
  - rewrite handleLog_users, Hc. cbn. rewrite lookup_insert_eq.
    unfold entity, guarded. by rewrite Hn.
  - intros Hle. rewrite handleLog_users, Hc. cbn.
    unfold entity, guarded. rewrite Hn. cbn.
    by destruct (Z.ltb_spec Datetime.datetime_1_1_1 t); [lia|].
Qed.

Lemma C9_default_entry_witness :
  let h := new_UserHandler (at_10h 0) None true in
  let message := quoted "Carol" ++ " disconnected (7,8,0)" in
  users (snd (handleLog Datetime.datetime_1_1_1 message h)) !! "Carol"
  = Some (new_User "Carol")
  /\ users (snd (handleLog (at_10h 5) message h)) !! "Carol"
     = Some (accept false (at_10h 5) (CStr "7", CStr "8") (new_User "Carol")).
Proof.
  intros h message.
  assert (Hc : classify message = Event false "Carol" "7" "8")
    by (by vm_compute).
  split.
  - rewrite (proj1 (proj2 (proj2 (proj2
               (C9_default_entry Datetime.datetime_1_1_1 message
                  false "Carol" "7" "8" h Hc eq_refl))))).
    reflexivity.
  - rewrite (proj1 (proj2 (proj2 (proj2
               (C9_default_entry (at_10h 5) message
                  false "Carol" "7" "8" h Hc eq_refl))))).
    reflexivity.
Defined.


(* ===================================================================== *)
(** ** What every method keeps of the store *)
(* ===================================================================== *)

Section Kept.

(** A relation between the store before and the store after that each
    call of [handleLog] establishes and that composes. *)
Variable R : gmap string User -> gmap string User -> Prop.
Hypothesis R_refl : forall us, R us us.
Hypothesis R_trans : forall us1 us2 us3, R us1 us2 -> R us2 us3 -> R us1 us3.
Hypothesis R_step : forall t p us, R us (users_after t p us).

Lemma handleLog_kept t message h :
  R (users h) (users (snd (handleLog t message h))).
Proof. rewrite handleLog_users. apply R_step. Qed.

Lemma update_loop_kept ls : forall nt h,
  R (users h) (users (snd (update_loop ls nt h))).
Proof.
  induction ls as [|line ls IH]; intros nt h; [apply R_refl|].
  destruct (splitLine line) as [[t message]|e] eqn:Hs.
  - rewrite (update_loop_step _ _ _ _ _ _ Hs).
    destruct (lastUpdateTimestamp h <? t); [|apply R_refl].
    pose proof (handleLog_kept t message h) as Hk.
    destruct (handleLog t message h) as [[m|e] h1]; [|done].
    cbn in Hk. eapply R_trans; [exact Hk|].
    rewrite <- (proj2 (notify_frame m h1)). apply IH.
  - rewrite (update_loop_raise _ _ _ _ _ Hs). apply R_refl.
Qed.

Lemma update_kept files h : R (users h) (users (snd (update files h))).
Proof.
  destruct files as [|f rest].
  - change (update [] h) with (refresh_presence h).
    rewrite (proj1 (proj2 (refresh_presence_frame h))). apply R_refl.
  - rewrite update_unfold. unfold bind at 1. run. unfold bind at 1.
    pose proof (update_loop_kept (FileReadBackwards f)
                  (lastUpdateTimestamp h) h) as Hk.
    destruct (update_loop _ _ h) as [[r|e] h1]; [|done].
    unfold modify.
    by rewrite (proj1 (proj2 (refresh_presence_frame _))).
Qed.

Lemma history_lines_kept ls : forall h,
  R (users h) (users (snd (history_lines ls h))).
Proof.
  induction ls as [|line ls IH]; intros h; [apply R_refl|].
  rewrite history_lines_step.
  destruct (splitLine line) as [[t message]|e]; [|apply R_refl].
  pose proof (handleLog_kept t message h) as Hk.
  destruct (handleLog t message h) as [[m|e] h1]; [|done].
  eapply R_trans; [exact Hk|apply IH].
Qed.

Lemma history_files_kept files : forall h,
  R (users h) (users (snd (history_files files h))).
Proof.
  induction files as [|f files IH]; intros h; [apply R_refl|].
  cbn [history_files]. unfold bind.
  pose proof (history_lines_kept (lines f) h) as Hk.
  destruct (history_lines (lines f) h) as [[[]|e] h1]; [|done].
  eapply R_trans; [exact Hk|apply IH].
Qed.

Lemma loadHistory_kept files h :
  R (users h) (users (snd (loadHistory files h))).
Proof.
  unfold loadHistory. run. unfold bind, perform, modify.
  pose proof (history_files_kept (sort_by_mtime files)
                (add_effect (Log INFO "Loading user history...") h)) as Hk.
  by destruct (history_files _ _) as [[[]|e] h1].
Qed.

End Kept.

Lemma guarded_advances b t loc u :
  guarded b t loc u = u \/ lastSeen u < lastSeen (guarded b t loc u).
Proof.
  unfold guarded. destruct (Z.ltb_spec (lastSeen u) t); [right|left]; done.
Qed.

Lemma advances_refl us : advances us us.
Proof. intros n u Hu. eauto. Qed.

Lemma advances_trans us1 us2 us3 :
  advances us1 us2 -> advances us2 us3 -> advances us1 us3.
Proof.
  intros H12 H23 n u Hu.
  destruct (H12 n u Hu) as (u2 & Hu2 & H2).
  destruct (H23 n u2 Hu2) as (u3 & Hu3 & H3).
  exists u3. split; [done|].
  destruct H2 as [->|H2], H3 as [->|H3]; auto. right. lia.
Qed.

Lemma advances_step t p us : advances us (users_after t p us).
Proof.
  intros n u Hu. destruct p as [b n' x y| |]; cbn; eauto.
  destruct (decide (n' = n)) as [->|Hne].
  - rewrite lookup_insert_eq. unfold entity. rewrite Hu. cbn.
    eexists. split; [done|]. apply guarded_advances.
  - rewrite lookup_insert_ne by done. eauto.
Qed.

Lemma well_kept_step t p us : well_kept us -> well_kept (users_after t p us).
Proof.
  intros Hk n u. destruct p as [b n' x y| |]; cbn; try apply Hk.
  destruct (decide (n' = n)) as [->|Hne].
  - rewrite lookup_insert_eq. intros [= <-].
    assert (Hent : name (entity n us) = n /\ hoursAlive (entity n us) = 0
                   /\ recordHoursAlive (entity n us) = 0
                   /\ perks (entity n us) = ∅ /\ died (entity n us) = []).
    { unfold entity. destruct (us !! n) as [u|] eqn:Hu; [by apply Hk|done]. }
    unfold guarded. by destruct (lastSeen _ <? t).
  - rewrite lookup_insert_ne by done. apply Hk.
Qed.

(** Whatever the scan of [update] does, it writes no field but [users]
    and [effects], and sets no presence. *)
Lemma update_loop_fields ls : forall nt h,
  let h' := snd (update_loop ls nt h) in
  lastUpdateTimestamp h' = lastUpdateTimestamp h
  /\ notifyDisconnect h' = notifyDisconnect h
  /\ onlineCount h' = onlineCount h
  /\ bot_channel h' = bot_channel h
  /\ presences h' = presences h.
Proof.
  induction ls as [|line ls IH]; intros nt h; [done|]. cbn zeta.
  destruct (splitLine line) as [[t message]|e] eqn:Hs.
  - rewrite (update_loop_step _ _ _ _ _ _ Hs).
    destruct (lastUpdateTimestamp h <? t); [|done].
    pose proof (handleLog_frame t message h) as (Hw & Hn & Ho & Hc & _).
    assert (Hp : presences (snd (handleLog t message h)) = presences h).
    { rewrite handleLog_spec. destruct (classify message); cbn; try done;
        by destruct (lastUpdateTimestamp h <? t). }
    destruct (handleLog t message h) as [[m|e] h1];
      cbn in Hw, Hn, Ho, Hc, Hp; [|done].
    destruct (IH (Z.max nt t) (notify m h1)) as (-> & -> & -> & -> & ->).
    unfold presences in *.
    destruct m as [text|]; cbn; [destruct (bot_channel h1) eqn:E|]; cbn;
      repeat split; congruence.
  - by rewrite (update_loop_raise _ _ _ _ _ Hs).
Qed.

(** X1.  [getUser] never raises and returns the entry that the store
    then holds under the name; it leaves every other entry, the
    watermark and the effects alone, and changes nothing at all when the
    name was already there. *)
Theorem getUser_get_or_create n h :
  let r := getUser n h in
  (exists u, fst r = Ok u /\ users (snd r) !! n = Some u)
  /\ (forall n', n' <> n -> users (snd r) !! n' = users h !! n')
  /\ (forall u, users h !! n = Some u -> r = (Ok u, h))
  /\ lastUpdateTimestamp (snd r) = lastUpdateTimestamp h
  /\ effects (snd r) = effects h.
Proof.
  cbn zeta. rewrite getUser_spec. cbn. repeat split.
  - exists (entity n (users h)). by rewrite lookup_insert_eq.
  - intros n' Hne. by rewrite lookup_insert_ne.
  - intros u Hu. unfold entity. rewrite Hu. cbn.
    by rewrite (insert_id _ _ _ Hu), set_users_same.
Qed.

Lemma getUser_get_or_create_witness :
  let h := snd (handleLog (at_10h 0)
                  (quoted "Alice" ++ " fully connected (5,5,0)")
                  (new_UserHandler 0 None true)) in
  users (snd (getUser "Bob" h)) !! "Alice" = users h !! "Alice"
  /\ getUser "Alice" h
     = (Ok (accept true (at_10h 0) (CStr "5", CStr "5") (new_User "Alice")), h).
Proof.
  intros h. split.
  - by apply (proj1 (proj2 (getUser_get_or_create "Bob" h))).
  - by apply (proj1 (proj2 (proj2 (getUser_get_or_create "Alice" h)))).
Defined.

(** X2.  [handleLog] touches no entity but the one whose quoted name the
    message carries: every other name looks up the same before and
    after, whatever the outcome. *)
Theorem handleLog_other_entities t message h n' :
  (forall b x y, classify message <> Event b n' x y) ->
  users (snd (handleLog t message h)) !! n' = users h !! n'.
Proof.
  intros Hn. rewrite handleLog_users.
  destruct (classify message) as [b n x y| |] eqn:Hc; cbn; try done.
  apply lookup_insert_ne. intros ->. by apply (Hn b x y).
Qed.

Lemma handleLog_other_entities_witness :
  let h := snd (handleLog (at_10h 0)
                  (quoted "Alice" ++ " fully connected (5,5,0)")
                  (new_UserHandler 0 None true)) in
  users (snd (handleLog (at_10h 5)
                (quoted "Bob" ++ " disconnected (6,6,0)") h)) !! "Alice"
  = users h !! "Alice".
Proof.
  intros h. apply handleLog_other_entities.
  intros b x y. by vm_compute.
Defined.

(** X3.  No method ever removes an entity or moves its [lastSeen] back:
    an entity of the store is still there after [handleLog], after a
    cycle of [update] and after [loadHistory], returned or raised, and it
    is either exactly as it was or has a later [lastSeen]. *)
Theorem entities_only_advance files t message h n u :
  users h !! n = Some u ->
  forall h',
    h' = snd (handleLog t message h)
    \/ h' = snd (update files h)
    \/ h' = snd (loadHistory files h) ->
    exists u', users h' !! n = Some u'
               /\ (u' = u \/ lastSeen u < lastSeen u').
Proof.
  intros Hu h' [-> | [-> | ->]].
  - by apply (handleLog_kept advances advances_step).
  - by apply (update_kept advances advances_refl advances_trans advances_step).
  - by apply (loadHistory_kept advances advances_refl advances_trans
                advances_step).
Qed.

Lemma entities_only_advance_witness :
  let h := snd (handleLog (at_10h 5)
                  (quoted "Alice" ++ " disconnected (6,6,0)")
                  (new_UserHandler 0 None true)) in
  let u := accept false (at_10h 5) (CStr "6", CStr "6") (new_User "Alice") in
  exists u', users (snd (update [mkFile 0 [alice_connects]] h)) !! "Alice"
             = Some u'
             /\ (u' = u \/ lastSeen u < lastSeen u').
Proof.
  intros h u.
  apply (entities_only_advance [mkFile 0 [alice_connects]] 0 "" h "Alice" u).
  - by vm_compute.
  - right. by left.
Defined.

Lemma well_kept_empty : well_kept ∅.
Proof. intros n u Hu. by rewrite lookup_empty in Hu. Qed.

(** X4.  Every method keeps the store well kept: each entry stays under
    its own name, and [hoursAlive], [recordHoursAlive], [perks] and
    [died] keep their defaults, which nothing in the handler ever
    assigns.  The store that [__init__] builds is well kept. *)
Theorem store_stays_well_kept files t message h :
  (well_kept (users h) ->
   well_kept (users (snd (handleLog t message h)))
   /\ well_kept (users (snd (update files h)))
   /\ well_kept (users (snd (loadHistory files h))))
  /\ (forall now env channel,
        well_kept (users (snd (init now env channel files)))).
Proof.
  set (R := fun us us' : gmap string User => well_kept us -> well_kept us').
  assert (R_refl : forall us, R us us) by (intros us Hk; exact Hk).
  assert (R_trans : forall a b c, R a b -> R b c -> R a c)
    by (intros a b c Hab Hbc Ha; apply Hbc, Hab, Ha).
  assert (R_step : forall t p us, R us (users_after t p us))
    by (intros ? ? ? Hk; by apply well_kept_step).
  split.
  - intros Hk. split; [|split].
    + exact (handleLog_kept R R_step t message h Hk).
    + exact (update_kept R R_refl R_trans R_step files h Hk).
    + exact (loadHistory_kept R R_refl R_trans R_step files h Hk).
  - intros now env channel. unfold init, bind, modify.
    pose proof (loadHistory_kept R R_refl R_trans R_step files
                  (new_UserHandler now env channel)) as Hk.
    destruct (loadHistory files _) as [[[]|e] h1]; cbn in Hk |- *;
      apply Hk, well_kept_empty.
Qed.

Lemma store_stays_well_kept_witness :
  well_kept (users (snd (update [mkFile 0 [alice_connects; alice_disconnects]]
                           (new_UserHandler 0 None true)))).
Proof.
  apply (proj1 (store_stays_well_kept
                  [mkFile 0 [alice_connects; alice_disconnects]] 0 ""
                  (new_UserHandler 0 None true))).
  exact well_kept_empty.
Defined.

(* ===================================================================== *)
(** ** What a cycle does to the watermark, the presence and the channel *)
(* ===================================================================== *)

(** The outcome of [update] in terms of the outcome of its scan. *)
Lemma update_cases f rest h :
  update (f :: rest) h
  = match update_loop (FileReadBackwards f) (lastUpdateTimestamp h) h with
    | (Ok r, h1) => refresh_presence (set_lastUpdateTimestamp r h1)
    | (Raise e, h1) => (Raise e, h1)
    end.
Proof.
  rewrite update_unfold. unfold bind at 1. run. unfold bind at 1.
  by destruct (update_loop _ _ h) as [[r|e] h1].
Qed.

Lemma refresh_presence_spec h :
  let c := count_online (users h) in
  refresh_presence h
  = (Ok tt,
     if decide (Some c ≠ onlineCount h)
     then set_onlineCount (Some c) (add_effect (ChangePresence (presence_text c)) h)
     else h).
Proof.
  unfold refresh_presence, bind, get, perform, modify, ret. cbn.
  by destruct (decide _).
Qed.

(** X5.  The watermark is never rewound: after a cycle of [update] it is
    at least what it was, on any files; and a cycle that raises leaves
    both the watermark and the stored online count exactly as they
    were. *)
Theorem update_watermark_never_rewound files h :
  lastUpdateTimestamp h <= lastUpdateTimestamp (snd (update files h))
  /\ (forall e, fst (update files h) = Raise e ->
        lastUpdateTimestamp (snd (update files h)) = lastUpdateTimestamp h
        /\ onlineCount (snd (update files h)) = onlineCount h).
Proof.
  destruct files as [|f rest].
  - change (update [] h) with (refresh_presence h).
    destruct (refresh_presence_frame h) as (Hr & _ & -> & _).
    split; [lia|]. intros e He. by rewrite Hr in He.
  - rewrite update_cases.
    pose proof (update_loop_fields (FileReadBackwards f)
                  (lastUpdateTimestamp h) h) as (Hw & _ & Ho & _).
    destruct (update_loop _ _ h) as [[r|e] h1] eqn:Hloop; cbn in Hw, Ho.
    + apply update_loop_ok in Hloop as [_ Hle].
      destruct (refresh_presence_frame (set_lastUpdateTimestamp r h1))
        as (Hr & _ & -> & _).
      split; [done|]. intros e He. by rewrite Hr in He.
    + cbn. split; [lia|done].
Qed.

Lemma update_watermark_never_rewound_witness :
  let bad := "[01-01-24 10:07:00.000]" ++ quoted "Bob" ++ " disconnected" in
  let f := mkFile 0 [bad; alice_disconnects] in
  let h := new_UserHandler (at_10h 2) None true in
  lastUpdateTimestamp (snd (update [f] h)) = at_10h 2
  /\ onlineCount (snd (update [f] h)) = None.
Proof.
  intros bad f h.
  apply (proj2 (update_watermark_never_rewound [f] h) AttributeError).
  by vm_compute.
Defined.

(** X6.  After a cycle that returns, the stored online count is the
    number of entities online in the store, and the presence was set in
    that cycle exactly when this number differs from the count stored
    before, hence always in the first cycle, whose stored count is
    [None]; the text then names the number, or nobody. *)
Theorem update_presence files h h' :
  update files h = (Ok tt, h') ->
  let c := count_online (users h') in
  onlineCount h' = Some c
  /\ presences h'
     = (if decide (onlineCount h = Some c) then presences h
        else presence_text c :: presences h).
Proof.
  intros Hrun.
  assert (Hgen : forall h1,
             onlineCount h1 = onlineCount h -> presences h1 = presences h ->
             refresh_presence h1 = (Ok tt, h') ->
             onlineCount h' = Some (count_online (users h'))
             /\ presences h'
                = (if decide (onlineCount h = Some (count_online (users h')))
                   then presences h
                   else presence_text (count_online (users h')) :: presences h)).
  { intros h1 Ho Hp. rewrite refresh_presence_spec. cbn zeta.
    destruct (decide (Some (count_online (users h1)) ≠ onlineCount h1))
      as [Hne|Heq]; intros [= <-]; cbn.
    - split; [done|]. rewrite decide_False by congruence.
      unfold presences in *. cbn. by rewrite Hp.
    - apply dec_stable in Heq. rewrite decide_True by congruence.
      split; congruence. }
  destruct files as [|f rest]; [by apply (Hgen h)|].
  rewrite update_cases in Hrun.
  pose proof (update_loop_fields (FileReadBackwards f)
                (lastUpdateTimestamp h) h) as (_ & _ & Ho & _ & Hp).
  destruct (update_loop _ _ h) as [[r|e] h1]; [|done]. cbn in Ho, Hp.
  by apply (Hgen (set_lastUpdateTimestamp r h1)).
Qed.

Lemma update_presence_witness :
  let h := new_UserHandler (at_10h 2) None true in
  let h' := snd (update [mkFile 0 [alice_connects; alice_disconnects]] h) in
  onlineCount h' = Some 0%nat
  /\ presences h' = ["PZ with nobody"].
Proof.
  intros h h'.
  destruct (update_presence [mkFile 0 [alice_connects; alice_disconnects]]
              h h') as [Ho Hp]; [by vm_compute|].
  split; [rewrite Ho | rewrite Hp]; by vm_compute.
Defined.

Lemma update_loop_silent ls : forall nt h,
  bot_channel h = false \/ notifyDisconnect h = false ->
  sent (snd (update_loop ls nt h)) = sent h.
Proof.
  induction ls as [|line ls IH]; intros nt h Hoff; [done|].
  destruct (splitLine line) as [[t message]|e] eqn:Hs.
  - rewrite (update_loop_step _ _ _ _ _ _ Hs).
    destruct (lastUpdateTimestamp h <? t) eqn:Hlt; [|done].
    pose proof (handleLog_frame t message h) as (_ & Hn & _ & Hc & Hsent).
    pose proof (handleLog_spec t message h) as Hspec.
    destruct (handleLog t message h) as [[m|e] h1]; cbn in Hn, Hc, Hsent;
      [|done].
    assert (Hquiet : notify m h1 = h1).
    { destruct m as [text|]; [|done]. cbn.
      destruct Hoff as [Hoff|Hoff].
      - by rewrite Hc, Hoff.
      - exfalso. rewrite Hlt in Hspec.
        destruct (classify message) as [[] n x y| |]; try done.
        cbn in Hspec. by rewrite Hoff in Hspec. }
    rewrite Hquiet, IH; [done|]. by rewrite Hc, Hn.
  - by rewrite (update_loop_raise _ _ _ _ _ Hs).
Qed.

(** X7.  A handler without a channel, or with the notification of
    disconnects switched off, never sends anything in a cycle, whatever
    the files hold and however the cycle ends. *)
Theorem update_silent files h :
  bot_channel h = false \/ notifyDisconnect h = false ->
  sent (snd (update files h)) = sent h.
Proof.
  intros Hoff. destruct files as [|f rest].
  - change (update [] h) with (refresh_presence h).
    apply refresh_presence_frame.
  - rewrite update_cases.
    pose proof (update_loop_silent (FileReadBackwards f)
                  (lastUpdateTimestamp h) h Hoff) as Hs.
    destruct (update_loop _ _ h) as [[r|e] h1]; [|done]. cbn in Hs.
    by rewrite (proj2 (proj2 (proj2 (refresh_presence_frame _)))).
Qed.

Lemma update_silent_witness :
  let f := mkFile 0 [alice_connects; alice_disconnects] in
  sent (snd (update [f] (new_UserHandler 0 (Some "False") true))) = []
  /\ sent (snd (update [f] (new_UserHandler 0 None false))) = [].
Proof.
  intros f. split.
  - apply (update_silent [f] (new_UserHandler 0 (Some "False") true)).
    by right.
  - apply (update_silent [f] (new_UserHandler 0 None false)). by left.
Defined.


(* ===================================================================== *)
(** ** Reading backwards, replaying, and the order of the files *)
(* ===================================================================== *)

(** The scan of [update] over lines that it handles without raising. *)
Lemma update_loop_users ls evs : forall nt h,
  Forall2 (handled (lastUpdateTimestamp h)) ls evs ->
  exists r h',
    update_loop ls nt h = (Ok r, h')
    /\ users h' = users_after_all evs (users h).
Proof.
  revert evs. induction ls as [|line ls IH]; intros evs nt h Hall.
  - apply Forall2_nil_inv_l in Hall as ->. by exists nt, h.
  - apply Forall2_cons_inv_l in Hall
      as ([t message] & evs' & (Hs & Hlt & Hm) & Hall & ->).
    cbn in Hlt, Hm. rewrite (update_loop_step _ _ _ _ _ _ Hs).
    destruct (Z.ltb_spec (lastUpdateTimestamp h) t); [|lia].
    destruct (handleLog_returns t message h Hm) as [m Hr].
    pose proof (handleLog_users t message h) as Hu.
    pose proof (handleLog_frame t message h) as (Hw & _).
    destruct (handleLog t message h) as [r' h1]. cbn in Hr, Hu, Hw. subst r'.
    destruct (IH evs' (Z.max nt t) (notify m h1)) as (r & h' & Hrun & Hu').
    { by rewrite (proj1 (notify_frame m h1)), Hw. }
    exists r, h'. split; [done|]. cbn.
    by rewrite Hu', (proj2 (notify_frame m h1)), Hu.
Qed.

(** X9.  Reading backwards loses nothing: when every line of the active
    file splits, is later than the watermark and raises nothing, and the
    timestamps are pairwise distinct, the cycle returns and leaves the
    store that handling the same lines from first to last leaves. *)
Theorem update_backwards_as_forwards f rest h evs :
  Forall2 (handled (lastUpdateTimestamp h)) (lines f) evs ->
  NoDup (map fst evs) ->
  fst (update (f :: rest) h) = Ok tt
  /\ users (snd (update (f :: rest) h))
     = users (snd (history_lines (lines f) h)).
Proof.
  intros Hall Hnd.
  destruct (history_lines_users (lines f) evs) with (h := h) as [_ ->].
  { eapply Forall2_impl; [exact Hall|]. by intros line e (? & _). }
  { clear Hnd. induction Hall as [|line e ls evs' (_ & _ & ?) _ IH];
      by constructor. }
  rewrite update_cases.
  destruct (update_loop_users (FileReadBackwards f) (rev evs)
              (lastUpdateTimestamp h) h) as (r & h1 & -> & Hu).
  { by apply Forall2_rev. }
  destruct (refresh_presence_frame (set_lastUpdateTimestamp r h1))
    as (-> & -> & _).
  split; [done|]. cbn. rewrite Hu. symmetry.
  apply users_after_all_perm; [apply Permutation_rev|done].
Qed.

Lemma update_backwards_as_forwards_witness :
  let f := mkFile 0 [alice_connects; alice_disconnects] in
  let h := new_UserHandler (at_10h 0 - 1) None true in
  users (snd (update [f] h)) = users (snd (history_lines (lines f) h)).
Proof.
  intros f h.
  apply (update_backwards_as_forwards f [] h
           [(at_10h 0, quoted "Alice" ++ " fully connected (5,5,0)");
            (at_10h 5, quoted "Alice" ++ " disconnected (6,6,0)")]).
  - repeat constructor; by vm_compute.
  - by apply (bool_decide_unpack (NoDup [at_10h 0; at_10h 5])).
Defined.

Lemma insert_by_mtime_comm f g fs :
  mtime f <> mtime g ->
  insert_by_mtime f (insert_by_mtime g fs)
  = insert_by_mtime g (insert_by_mtime f fs).
Proof.
  intros Hne. induction fs as [|x fs IH]; cbn.
  - destruct (Z.leb_spec (mtime f) (mtime g)), (Z.leb_spec (mtime g) (mtime f));
      try done; lia.
  - destruct (Z.leb_spec (mtime g) (mtime x)), (Z.leb_spec (mtime f) (mtime x));
      cbn;
      repeat match goal with
             | |- context [?a <=? ?b] => destruct (Z.leb_spec a b); cbn
             end; try done; try lia.
    by rewrite IH.
Qed.

Lemma sort_by_mtime_perm fs fs' :
  Permutation fs fs' ->
  NoDup (map mtime fs) ->
  sort_by_mtime fs = sort_by_mtime fs'.
Proof.
  unfold sort_by_mtime.
  induction 1 as [|f l l' _ IH|f g l|l1 l2 l3 H12 IH12 H23 IH23];
    intros Hnd; cbn.
  - done.
  - cbn in Hnd. apply NoDup_cons in Hnd as [_ Hnd]. by rewrite IH.
  - apply insert_by_mtime_comm.
    cbn in Hnd. apply NoDup_cons in Hnd as [Hnotin _].
    intros Heq. apply Hnotin. rewrite Heq. apply list_elem_of_here.
  - rewrite IH12 by done. apply IH23.
    apply (Permutation_map mtime) in H12 as Hp. by rewrite <- Hp.
Qed.

(** X10.  The order in which [glob] lists the historical files does not
    matter when their modification times are pairwise distinct:
    [loadHistory] does the same on any two listings of the same files. *)
Theorem loadHistory_any_listing files files' h :
  Permutation files files' ->
  NoDup (map mtime files) ->
  loadHistory files' h = loadHistory files h.
Proof.
  intros Hp Hnd. unfold loadHistory.
  by rewrite (sort_by_mtime_perm files files' Hp Hnd).
Qed.

Lemma loadHistory_any_listing_witness :
  let older := mkFile 1 [alice_connects] in
  let newer := mkFile 2 [alice_disconnects] in
  let h := new_UserHandler 0 None true in
  loadHistory [newer; older] h = loadHistory [older; newer] h.
Proof.
  intros older newer h. apply loadHistory_any_listing.
  - apply perm_swap.
  - by apply (bool_decide_unpack (NoDup [1; 2])).
Defined.

Lemma covered_step t p us : covered t p (users_after t p us).
Proof.
  destruct p as [b n x y| |]; cbn; try done.
  rewrite lookup_insert_eq. eexists. split; [done|].
  unfold guarded. destruct (Z.ltb_spec (lastSeen (entity n us)) t); cbn; lia.
Qed.

Lemma covered_advances t p us us' :
  advances us us' -> covered t p us -> covered t p us'.
Proof.
  intros Ha. destruct p as [b n x y| |]; cbn; try done.
  intros (u & Hu & Hle). destruct (Ha n u Hu) as (u' & Hu' & H').
  exists u'. split; [done|]. destruct H' as [->|?]; lia.
Qed.

Lemma covered_noop t p us : covered t p us -> users_after t p us = us.
Proof.
  destruct p as [b n x y| |]; cbn; try done.
  intros (u & Hu & Hle). unfold entity, guarded. rewrite Hu. cbn.
  destruct (Z.ltb_spec (lastSeen u) t); [lia|]. by apply insert_id.
Qed.

Lemma users_after_all_advances evs : forall us,
  advances us (users_after_all evs us).
Proof.
  unfold users_after_all.
  induction evs as [|e evs IH]; intros us; cbn; [apply advances_refl|].
  eapply advances_trans; [apply advances_step|apply IH].
Qed.

Lemma users_after_all_covered evs : forall us,
  Forall (fun e => covered (fst e) (classify (snd e))
                     (users_after_all evs us)) evs.
Proof.
  induction evs as [|e evs IH]; intros us; [constructor|].
  constructor; [|apply IH].
  eapply covered_advances; [|apply covered_step].
  apply (users_after_all_advances evs).
Qed.

Lemma users_after_all_noop evs : forall us,
  Forall (fun e => covered (fst e) (classify (snd e)) us) evs ->
  users_after_all evs us = us.
Proof.
  unfold users_after_all.
  induction evs as [|e evs IH]; intros us Hall; [done|].
  apply Forall_cons in Hall as [He Hall]. cbn.
  rewrite (covered_noop _ _ _ He). by apply IH.
Qed.

(** A batch of messages handled a second time changes nothing. *)
Lemma users_after_all_idem evs us :
  users_after_all evs (users_after_all evs us) = users_after_all evs us.
Proof. apply users_after_all_noop, users_after_all_covered. Qed.

(** The lines of a historical file that [history_lines] returns on. *)
Lemma history_lines_ok ls : forall h,
  fst (history_lines ls h) = Ok tt ->
  exists evs,
    Forall2 (fun line e => splitLine line = Ok e) ls evs
    /\ Forall (fun e => classify (snd e) <> Unmatched) evs.
Proof.
  induction ls as [|line ls IH]; intros h Hok.
  - exists []. by split; constructor.
  - rewrite history_lines_step in Hok.
    destruct (splitLine line) as [[t message]|e] eqn:Hs; [|done].
    pose proof (handleLog_spec t message h) as Hspec.
    destruct (handleLog t message h) as [[m|e] h1]; [|done].
    destruct (IH h1 Hok) as (evs & Hsplit & Hall).
    exists ((t, message) :: evs). split; constructor; try done.
    cbn. intros Hc. by rewrite Hc in Hspec.
Qed.

(** The scan of [update] never looks past a line that is not later than
    the watermark. *)
Lemma update_loop_stops stale t message ls : forall nt h a b,
  splitLine stale = Ok (t, message) ->
  t <= lastUpdateTimestamp h ->
  update_loop (ls ++ stale :: a) nt h = update_loop (ls ++ stale :: b) nt h.
Proof.
  induction ls as [|line ls IH]; intros nt h a b Hs Hle; cbn [app].
  - rewrite !(update_loop_step _ _ _ _ _ _ Hs).
    by destruct (Z.ltb_spec (lastUpdateTimestamp h) t); [lia|].
  - destruct (splitLine line) as [[t' message']|e] eqn:Hs'.
    + rewrite !(update_loop_step _ _ _ _ _ _ Hs').
      destruct (lastUpdateTimestamp h <? t'); [|done].
      pose proof (handleLog_frame t' message' h) as (Hw & _).
      destruct (handleLog t' message' h) as [[m|e] h1]; [|done].
      cbn in Hw. apply IH; [done|].
      by rewrite (proj1 (notify_frame m h1)), Hw.
    + by rewrite !(update_loop_raise _ _ _ _ _ Hs').
Qed.

(** X12.  A cycle reads nothing before the last line of the active file
    that is not later than the watermark: with such a line in the file,
    whatever precedes it, well formed or not, changes nothing of what
    the cycle does. *)
Theorem update_ignores_older_lines stale t message pre pre' post m m' rest h :
  splitLine stale = Ok (t, message) ->
  t <= lastUpdateTimestamp h ->
  update (mkFile m (pre ++ stale :: post) :: rest) h
  = update (mkFile m' (pre' ++ stale :: post) :: rest) h.
Proof.
  intros Hs Hle. rewrite !update_cases. unfold FileReadBackwards. cbn [lines].
  rewrite !rev_app_distr. cbn [rev]. rewrite <- !app_assoc. cbn [app].
  by rewrite (update_loop_stops stale t message (rev post)
                (lastUpdateTimestamp h) h (rev pre) (rev pre') Hs Hle).
Qed.

Lemma update_ignores_older_lines_witness :
  let h := new_UserHandler (at_10h 2) None true in
  update [mkFile 0 ["no bracket at all"; alice_connects; alice_disconnects]] h
  = update [mkFile 0 [alice_connects; alice_disconnects]] h.
Proof.
  intros h.
  apply (update_ignores_older_lines alice_connects (at_10h 0)
           (quoted "Alice" ++ " fully connected (5,5,0)")
           ["no bracket at all"] [] [alice_disconnects] 0 0 [] h);
    by vm_compute.
Defined.

(** The timestamped messages of historical files that [history_files]
    returns on; they do not depend on the handler. *)
Lemma history_files_ok files : forall h,
  fst (history_files files h) = Ok tt ->
  exists evs, forall h2,
    fst (history_files files h2) = Ok tt
    /\ users (snd (history_files files h2)) = users_after_all evs (users h2).
Proof.
  induction files as [|f files IH]; intros h Hok.
  - by exists [].
  - cbn [history_files] in Hok. unfold bind in Hok.
    destruct (history_lines (lines f) h) as [[[]|e] h1] eqn:Hl; [|done].
    destruct (history_lines_ok (lines f) h) as (evs1 & Hsplit & Hall);
      [by rewrite Hl|].
    destruct (IH h1 Hok) as (evs2 & Hrest).
    exists (evs1 ++ evs2)%list. intros h2. cbn [history_files]. unfold bind.
    destruct (history_lines_users (lines f) evs1 Hsplit Hall h2) as [Hr Hu].
    destruct (history_lines (lines f) h2) as [r h3]. cbn in Hr, Hu. subst r.
    destruct (Hrest h3) as [-> ->].
    split; [done|]. unfold users_after_all. by rewrite fold_left_app, Hu.
Qed.

(** X11.  Replaying the history is idempotent: when [loadHistory] has
    returned, running it again on the same files returns too and leaves
    the store exactly as the first run left it. *)
Theorem loadHistory_replay files h :
  fst (loadHistory files h) = Ok tt ->
  let h1 := snd (loadHistory files h) in
  fst (loadHistory files h1) = Ok tt
  /\ users (snd (loadHistory files h1)) = users h1.
Proof.
  assert (Hshape : forall h0,
            loadHistory files h0
            = match history_files (sort_by_mtime files)
                      (add_effect (Log INFO "Loading user history...") h0) with
              | (Ok _, h') => (Ok tt, add_effect (Log INFO "User history loaded") h')
              | (Raise e, h') => (Raise e, h')
              end).
  { intros h0. unfold loadHistory. run. unfold bind, perform, modify.
    by destruct (history_files _ _) as [[[]|e] h']. }
  intros Hok. cbn zeta. rewrite Hshape in Hok. rewrite !Hshape.
  destruct (history_files_ok (sort_by_mtime files)
              (add_effect (Log INFO "Loading user history...") h))
    as (evs & Hevs).
  { by destruct (history_files _ _) as [[[]|e] h']. }
  pose proof (Hevs (add_effect (Log INFO "Loading user history...") h))
    as [_ Hu1].
  destruct (history_files _ (add_effect _ h)) as [[[]|e] h1]; [|done].
  cbn in Hu1 |- *.
  pose proof (Hevs (add_effect (Log INFO "Loading user history...")
                      (add_effect (Log INFO "User history loaded") h1)))
    as [Hr2 Hu2].
  destruct (history_files _ (add_effect _ (add_effect _ h1)))
    as [[[]|e] h2]; [|done].
  cbn in Hu2 |- *. split; [done|].
  rewrite Hu2, Hu1. apply users_after_all_idem.
Qed.

Lemma loadHistory_replay_witness :
  let files := [mkFile 2 [alice_disconnects]; mkFile 1 [alice_connects]] in
  let h1 := snd (loadHistory files (new_UserHandler 0 None true)) in
  fst (loadHistory files h1) = Ok tt
  /\ users (snd (loadHistory files h1)) = users h1.
Proof.
  intros files h1.
  apply (loadHistory_replay files (new_UserHandler 0 None true)).
  by vm_compute.
Defined.

(* ===================================================================== *)
(** ** What [splitLine] looks at *)
(* ===================================================================== *)

Lemma str_app (a b : string) : str (a ++ b) = (str a ++ str b)%list.
Proof.
  unfold str. induction a as [|c a IH]; [done|].
  change (String c a ++ b) with (String c (a ++ b)).
  cbn [list_ascii_of_string app]. by rewrite IH.
Qed.

Lemma lstrip_spaces ws l :
  forallb PyStr.is_space ws = true -> PyStr.lstrip (ws ++ l) = PyStr.lstrip l.
Proof.
  induction ws as [|c ws IH]; cbn; [done|].
  intros [Hc Hws]%andb_prop. rewrite Hc. by apply IH.
Qed.

Lemma lstrip_keeps_last l c :
  PyStr.is_space c = false ->
  PyStr.lstrip (l ++ [c]) = (PyStr.lstrip l ++ [c])%list.
Proof.
  intros Hc. induction l as [|a l IH]; cbn; [by rewrite Hc|].
  by destruct (PyStr.is_space a).
Qed.

Lemma spaces_rev ws :
  forallb PyStr.is_space ws = true -> forallb PyStr.is_space (rev ws) = true.
Proof.
  induction ws as [|c ws IH]; cbn; [done|].
  intros [Hc Hws]%andb_prop. rewrite forallb_app, IH by done. cbn.
  by rewrite Hc.
Qed.

Lemma strip_surrounded ws1 l ws2 :
  forallb PyStr.is_space ws1 = true ->
  forallb PyStr.is_space ws2 = true ->
  PyStr.strip (ws1 ++ l ++ ws2) = PyStr.strip l.
Proof.
  intros H1 H2. unfold PyStr.strip. rewrite (lstrip_spaces _ _ H1).
  induction l as [|c l IH]; cbn.
  - rewrite <- (app_nil_r ws2), (lstrip_spaces _ _ H2). done.
  - destruct (PyStr.is_space c); [done|].
    cbn [rev]. rewrite rev_app_distr, <- app_assoc.
    by rewrite lstrip_spaces by (by apply spaces_rev).
Qed.

(** X13.  [splitLine] does not see the white space around a line: with
    or without leading blanks and the trailing newline that the forward
    reading of [loadHistory] leaves on each line, it returns the same
    timestamp and message, or raises alike. *)
Theorem splitLine_ignores_surrounding_space ws1 line ws2 :
  forallb PyStr.is_space (str ws1) = true ->
  forallb PyStr.is_space (str ws2) = true ->
  splitLine (ws1 ++ line ++ ws2) = splitLine line.
Proof.
  intros H1 H2. unfold splitLine.
  by rewrite !str_app, (strip_surrounded _ _ _ H1 H2).
Qed.

Lemma splitLine_ignores_surrounding_space_witness :
  let newline := String Re.newline EmptyString in
  splitLine (" " ++ alice_connects ++ newline) = splitLine alice_connects.
Proof.
  intros newline.
  apply (splitLine_ignores_surrounding_space " " alice_connects newline);
    by vm_compute.
Defined.

(** X14.  [splitLine] drops the first character of the stripped line
    without looking at it: the opening bracket is not checked, and any
    other character that is not white space in its place gives the same
    result. *)
Theorem splitLine_ignores_first_character c c' rest :
  PyStr.is_space c = false ->
  PyStr.is_space c' = false ->
  splitLine (String c rest) = splitLine (String c' rest).
Proof.
  intros Hc Hc'. unfold splitLine.
  assert (Hdrop : forall a, PyStr.is_space a = false ->
            PyStr.drop1 (PyStr.strip (str (String a rest)))
            = rev (PyStr.lstrip (rev (str rest)))).
  { intros a Ha. unfold PyStr.strip. cbn [str list_ascii_of_string PyStr.lstrip].
    rewrite Ha. cbn [rev]. rewrite (lstrip_keeps_last _ _ Ha).
    by rewrite rev_app_distr. }
  by rewrite (Hdrop c Hc), (Hdrop c' Hc').
Qed.

Lemma splitLine_ignores_first_character_witness :
  splitLine ("[01-01-24 10:00:00.000]" ++ quoted "Alice"
             ++ " fully connected (5,5,0)")
  = splitLine ("x01-01-24 10:00:00.000]" ++ quoted "Alice"
               ++ " fully connected (5,5,0)").
Proof.
  apply (splitLine_ignores_first_character "[" "x"); by vm_compute.
Defined.

Lemma seen_by_step w t p us :
  Datetime.datetime_1_1_1 <= w ->
  seen_by w us -> seen_by (Z.max w t) (users_after t p us).
Proof.
  intros Hw Hs n u. destruct p as [b n' x y| |]; cbn;
    try (intros Hu; specialize (Hs n u Hu); lia).
  destruct (decide (n' = n)) as [->|Hne].
  - rewrite lookup_insert_eq. intros [= <-].
    assert (lastSeen (entity n us) <= w).
    { unfold entity. destruct (us !! n) as [u|] eqn:Hu; cbn; [|done].
      by apply (Hs n). }
    unfold guarded. destruct (Z.ltb_spec (lastSeen (entity n us)) t); cbn; lia.
  - rewrite lookup_insert_ne by done. intros Hu. specialize (Hs n u Hu). lia.
Qed.

Lemma seen_by_empty w : seen_by w ∅.
Proof. intros n u Hu. by rewrite lookup_empty in Hu. Qed.

Lemma update_loop_seen_by ls : forall nt h r h',
  Datetime.datetime_1_1_1 <= nt ->
  seen_by nt (users h) ->
  update_loop ls nt h = (Ok r, h') ->
  seen_by r (users h').
Proof.
  induction ls as [|line ls IH]; intros nt h r h' Hnt Hseen Hrun.
  - by injection Hrun as <- <-.
  - destruct (splitLine line) as [[t message]|e] eqn:Hs.
    + rewrite (update_loop_step _ _ _ _ _ _ Hs) in Hrun.
      destruct (lastUpdateTimestamp h <? t).
      * pose proof (handleLog_users t message h) as Hu.
        destruct (handleLog t message h) as [[m|e] h1]; [|done].
        cbn in Hu. eapply IH; [| |exact Hrun]; [lia|].
        rewrite (proj2 (notify_frame m h1)), Hu. by apply seen_by_step.
      * injection Hrun as <- <-. intros n u Hu. specialize (Hseen n u Hu). lia.
    + by rewrite (update_loop_raise _ _ _ _ _ Hs) in Hrun.
Qed.

(** X15.  When no entity of the store was last seen later than the
    watermark, a cycle that returns keeps it so: the watermark it stores
    is at least the [lastSeen] of every entity that it has created or
    changed. *)
Theorem update_watermark_covers_store files h h' :
  Datetime.datetime_1_1_1 <= lastUpdateTimestamp h ->
  seen_by (lastUpdateTimestamp h) (users h) ->
  update files h = (Ok tt, h') ->
  seen_by (lastUpdateTimestamp h') (users h').
Proof.
  intros Hw Hseen Hrun. destruct files as [|f rest].
  - change (update [] h) with (refresh_presence h) in Hrun.
    destruct (refresh_presence_frame h) as (_ & Hu & Hw' & _).
    rewrite Hrun in Hu, Hw'. cbn in Hu, Hw'. by rewrite Hu, Hw'.
  - apply update_ok in Hrun as (r & h1 & Hloop & ->).
    destruct (refresh_presence_frame (set_lastUpdateTimestamp r h1))
      as (_ & -> & -> & _). cbn.
    by eapply update_loop_seen_by.
Qed.

Lemma update_watermark_covers_store_witness :
  let h := new_UserHandler (at_10h 2) None true in
  let h' := snd (update [mkFile 0 [alice_connects; alice_disconnects]] h) in
  seen_by (lastUpdateTimestamp h') (users h').
Proof.
  intros h h'.
  apply (update_watermark_covers_store
           [mkFile 0 [alice_connects; alice_disconnects]] h h').
  - by vm_compute.
  - exact (seen_by_empty _).
  - by vm_compute.
Defined.

(* ===================================================================== *)
(** ** The timestamps that [splitLine] can return *)
(* ===================================================================== *)

(** A match that succeeds has called its continuation with success, on
    groups that differ from the initial ones only at the groups of the
    pattern. *)
Lemma m_continues {A} (r : Re.regex) :
  forall s g (k : list ascii -> Re.groups -> option A) x,
    Re.m r s g k = Some x ->
    exists s' g',
      k s' g' = Some x /\ forall i, ~ In i (group_ids r) -> g' i = g i.
Proof.
  assert (Hone : forall p s g (k : list ascii -> Re.groups -> option A) x,
             Re.one p s g k = Some x ->
             exists s' g', k s' g' = Some x /\ forall i, ~ In i [] -> g' i = g i).
  { intros p [|c s] g k x; cbn; [done|].
    destruct (p c); [|done]. intros Hk. by exists s, g. }
  induction r as [c| | | |lo hi|r1 IH1 r2 IH2|r1 IH1 r2 IH2|r1 IH1|n r1 IH1
                 |i r1 IH1]; intros s g k x; cbn [Re.m group_ids];
    try apply Hone.
  - intros Hm. apply IH1 in Hm as (s1 & g1 & Hm & Hg1).
    apply IH2 in Hm as (s2 & g2 & Hk & Hg2).
    exists s2, g2. split; [done|]. intros i Hi.
    rewrite Hg2, Hg1; [done| |]; intros ?; apply Hi, in_or_app; auto.
  - destruct (Re.m r1 s g k) eqn:H1.
    + intros [= ->]. apply IH1 in H1 as (s1 & g1 & Hk & Hg1).
      exists s1, g1. split; [done|]. intros i Hi. apply Hg1.
      intros ?; apply Hi, in_or_app; auto.
    + intros H2. apply IH2 in H2 as (s2 & g2 & Hk & Hg2).
      exists s2, g2. split; [done|]. intros i Hi. apply Hg2.
      intros ?; apply Hi, in_or_app; auto.
  - generalize (length s). intros fuel. revert s g.
    induction fuel as [|fuel IHf]; intros s g.
    + intros Hk. by exists s, g.
    + destruct (Re.m r1 s g _) eqn:H1.
      * intros [= ->]. apply IH1 in H1 as (s1 & g1 & Hk & Hg1).
        destruct (length s1 <? length s)%nat; [|done].
        apply IHf in Hk as (s2 & g2 & Hk & Hg2).
        exists s2, g2. split; [done|]. intros i Hi. by rewrite Hg2, Hg1.
      * intros Hk. by exists s, g.
  - revert s g. induction n as [|n IHn]; intros s g.
    + intros Hk. by exists s, g.
    + destruct (Re.m r1 s g _) eqn:H1.
      * intros [= ->]. apply IH1 in H1 as (s1 & g1 & Hk & Hg1).
        apply IHn in Hk as (s2 & g2 & Hk & Hg2).
        exists s2, g2. split; [done|]. intros i Hi. by rewrite Hg2, Hg1.
      * intros Hk. by exists s, g.
  - intros Hm. apply IH1 in Hm as (s1 & g1 & Hk & Hg1).
    eexists s1, _. split; [exact Hk|]. intros j Hj.
    unfold Re.set_group. destruct (Nat.eqb_spec i j) as [->|Hne].
    + exfalso. apply Hj. by left.
    + apply Hg1. intros ?. apply Hj. by right.
Qed.

Lemma m_seq {A} r1 r2 s g (k : list ascii -> Re.groups -> option A) :
  Re.m (Re.Seq r1 r2) s g k = Re.m r1 s g (fun s1 g1 => Re.m r2 s1 g1 k).
Proof. reflexivity. Qed.

(** A group of two digits captures two digits. *)
Lemma m_two_digits {A} i s g (k : list ascii -> Re.groups -> option A) x :
  Re.m (Re.Group i (Re.Seq Re.Digit Re.Digit)) s g k = Some x ->
  exists d1 d2 s',
    PyStr.is_digit d1 = true /\ PyStr.is_digit d2 = true
    /\ k s' (Re.set_group i [d1; d2] g) = Some x.
Proof.
  cbn [Re.m]. unfold Re.one.
  destruct s as [|d1 [|d2 s']]; try done.
  - by destruct (PyStr.is_digit d1).
  - destruct (PyStr.is_digit d1) eqn:H1; [|done].
    destruct (PyStr.is_digit d2) eqn:H2; [|done].
    intros Hk. exists d1, d2, s'. repeat split; try done.
    replace (length (d1 :: d2 :: s') - length s')%nat with 2%nat in Hk
      by (cbn [length]; lia).
    exact Hk.
Qed.

(** The year group of a timestamp that [strptime] matches. *)
Lemma strptime_year_digits s g rest :
  Re.rmatch Datetime.strptime_regex s = Some (g, rest) ->
  exists d1 d2,
    PyStr.is_digit d1 = true /\ PyStr.is_digit d2 = true
    /\ g 3%nat = Some [d1; d2].
Proof.
  unfold Re.rmatch. intros H.
  cbv [Datetime.strptime_regex Re.seq] in H.
  do 4 (rewrite m_seq in H; apply m_continues in H as (? & ? & H & _);
        cbv beta in H).
  rewrite m_seq in H.
  apply m_two_digits in H as (d1 & d2 & s' & H1 & H2 & H).
  apply m_continues in H as (s'' & g' & [= <- _] & Hg).
  exists d1, d2. repeat split; try done.
  rewrite Hg; [done|]. cbn. intuition discriminate.
Qed.

Lemma digit_value d :
  PyStr.is_digit d = true ->
  PyStr.is_space d = false
  /\ 0 <= Z.of_nat (nat_of_ascii d) - 48 <= 9.
Proof.
  unfold PyStr.is_digit, PyStr.is_space. generalize (nat_of_ascii d).
  intros n [H1 H2]%andb_prop.
  apply Nat.leb_le in H1, H2. split; [|lia].
  repeat match goal with
         | |- context [(?a <=? ?b)%nat] => destruct (Nat.leb_spec a b)
         end; cbn; try done; lia.
Qed.

Lemma ymd2ord_in_year year month day :
  Datetime.between 1 month 12 = true ->
  Datetime.between 1 day (Datetime.days_in_month year month) = true ->
  Datetime.days_before_year year < Datetime.ymd2ord year month day
  <= Datetime.days_before_year year + 366.
Proof.
  unfold Datetime.between, Datetime.ymd2ord.
  intros [H1 H2]%andb_prop [H3 H4]%andb_prop.
  apply Z.leb_le in H1, H2, H3, H4.
  assert (Hm : month = 1 \/ month = 2 \/ month = 3 \/ month = 4
               \/ month = 5 \/ month = 6 \/ month = 7 \/ month = 8
               \/ month = 9 \/ month = 10 \/ month = 11 \/ month = 12) by lia.
  unfold Datetime.days_in_month, Datetime.days_before_month in *.
  repeat destruct Hm as [Hm | Hm]; subst month;
    destruct (Datetime.is_leap year);
    repeat match goal with
           | H : context [Z.to_nat ?z] |- _ =>
               let v := eval vm_compute in (Z.to_nat z) in
               change (Z.to_nat z) with v in H
           | |- context [Z.to_nat ?z] =>
               let v := eval vm_compute in (Z.to_nat z) in
               change (Z.to_nat z) with v
           end; cbn in *; lia.
Qed.

(** The timestamps of [strptime]: the two digits of the year select a
    year from 1969 to 2068. *)
Lemma strptime_range s t :
  Datetime.strptime s = Some t ->
  Datetime.days_before_year 1969 * 86400000000 <= t
  < Datetime.days_before_year 2069 * 86400000000.
Proof.
  unfold Datetime.strptime.
  destruct (Re.rmatch Datetime.strptime_regex s) as [[g [|? ?]]|] eqn:Hm;
    try done.
  destruct (strptime_year_digits s g [] Hm) as (d1 & d2 & H1 & H2 & Hg).
  apply digit_value in H1 as [Hs1 Hv1], H2 as [Hs2 Hv2].
  assert (Hyy : 0 <= Datetime.int_group g 3 <= 99).
  { unfold Datetime.int_group. rewrite Hg.
    change (default [] (Some [d1; d2])) with [d1; d2].
    assert (PyStr.strip [d1; d2] = [d1; d2]) as ->.
    { unfold PyStr.strip. cbn [PyStr.lstrip]. rewrite Hs1.
      cbn [rev app PyStr.lstrip]. by rewrite Hs2. }
    cbn. lia. }
  generalize dependent (Datetime.int_group g 3). intros yy Hyy.
  set (year := if yy <=? 68 then yy + 2000 else yy + 1900).
  assert (Hyear : 1969 <= year <= 2068).
  { subst year. destruct (Z.leb_spec yy 68); lia. }
  generalize dependent year. intros year Hyear.
  unfold Datetime.make.
  destruct (_ && _) eqn:E; [|done]. intros [= <-].
  repeat match goal with
         | H : _ && _ = true |- _ => apply andb_prop in H as [? ?]
         end.
  match goal with
  | Hmo : Datetime.between 1 ?mo 12 = true,
    Hd : Datetime.between 1 ?d (Datetime.days_in_month year ?mo) = true |- _ =>
      pose proof (ymd2ord_in_year year mo d Hmo Hd) as Hord
  end.
  unfold Datetime.between in *.
  repeat match goal with
         | H : _ && _ = true |- _ => apply andb_prop in H as [? ?]
         | H : (_ <=? _) = true |- _ => apply Z.leb_le in H
         end.
  assert (Hlo : Datetime.days_before_year 1969 <= Datetime.days_before_year year).
  { unfold Datetime.days_before_year. Z.div_mod_to_equations. lia. }
  assert (Hhi : Datetime.days_before_year year + 366
                <= Datetime.days_before_year 2069).
  { unfold Datetime.days_before_year. Z.div_mod_to_equations. lia. }
  match goal with
  | H : _ < Datetime.ymd2ord year ?mo ?d <= _ |- _ =>
      generalize dependent (Datetime.ymd2ord year mo d)
  end.
  intros o Ho. lia.
Qed.

Lemma splitLine_strptime line t message :
  splitLine line = Ok (t, message) ->
  exists s, Datetime.strptime s = Some t.
Proof.
  unfold splitLine.
  destruct (PyStr.split1 _ _) as [[timestampStr rest]|]; [|done].
  destruct (Datetime.strptime timestampStr) as [t'|] eqn:E; [|done].
  intros [= <- _]. eauto.
Qed.

(** X16.  The two-digit year confines every timestamp that [splitLine]
    returns to the hundred years from [datetime(1969, 1, 1)] up to, and
    not including, [datetime(2069, 1, 1)]. *)
Theorem splitLine_timestamp_range line t message lo hi :
  splitLine line = Ok (t, message) ->
  Datetime.make 1969 1 1 0 0 0 0 = Some lo ->
  Datetime.make 2069 1 1 0 0 0 0 = Some hi ->
  lo <= t < hi.
Proof.
  intros (s & Hs)%splitLine_strptime Hlo Hhi.
  apply strptime_range in Hs.
  assert (lo = Datetime.days_before_year 1969 * 86400000000) as ->
    by (vm_compute in Hlo; vm_compute; congruence).
  assert (hi = Datetime.days_before_year 2069 * 86400000000) as ->
    by (vm_compute in Hhi; vm_compute; congruence).
  exact Hs.
Qed.

Lemma splitLine_timestamp_range_witness :
  Datetime.days_before_year 1969 * 86400000000 <= at_10h 5
  < Datetime.days_before_year 2069 * 86400000000.
Proof.
  apply (splitLine_timestamp_range alice_disconnects (at_10h 5)
           (quoted "Alice" ++ " disconnected (6,6,0)")); by vm_compute.
Defined.

(** X17.  The first connect or disconnect line of an entity is never
    stale: when a line that [splitLine] has split carries the name of an
    entity that the store does not hold, [handleLog] creates the entity
    with the state of that line, since every timestamp of a line is
    later than the default [lastSeen]. *)
Theorem first_event_of_entity_accepted line t message b n x y h :
  splitLine line = Ok (t, message) ->
  classify message = Event b n x y ->
  users h !! n = None ->
  users (snd (handleLog t message h)) !! n
  = Some (accept b t (CStr x, CStr y) (new_User n)).
Proof.
  intros (s & Hs)%splitLine_strptime Hc Hn.
  apply strptime_range in Hs as [Hlo _].
  assert (0 < t).
  { eapply Z.lt_le_trans; [|exact Hlo]. by vm_compute. }
  rewrite handleLog_users, Hc. cbn. rewrite lookup_insert_eq.
  unfold entity, guarded. rewrite Hn. cbn.
  by destruct (Z.ltb_spec Datetime.datetime_1_1_1 t);
    [|unfold Datetime.datetime_1_1_1 in *; lia].
Qed.

Lemma first_event_of_entity_accepted_witness :
  users (snd (handleLog (at_10h 5) (quoted "Alice" ++ " disconnected (6,6,0)")
                (new_UserHandler (at_10h 9) None true))) !! "Alice"
  = Some (accept false (at_10h 5) (CStr "6", CStr "6") (new_User "Alice")).
Proof.
  apply (first_event_of_entity_accepted alice_disconnects); by vm_compute.
Defined.

(* ===================================================================== *)
(** ** Start-up *)
(* ===================================================================== *)

Lemma history_lines_fields ls : forall h,
  let h' := snd (history_lines ls h) in
  notifyDisconnect h' = notifyDisconnect h
  /\ onlineCount h' = onlineCount h
  /\ bot_channel h' = bot_channel h
  /\ presences h' = presences h.
Proof.
  induction ls as [|line ls IH]; intros h; [done|]. cbn zeta.
  rewrite history_lines_step.
  destruct (splitLine line) as [[t message]|e]; [|done].
  pose proof (handleLog_frame t message h) as (_ & Hn & Ho & Hc & _).
  assert (Hp : presences (snd (handleLog t message h)) = presences h).
  { rewrite handleLog_spec. destruct (classify message); cbn; try done;
      by destruct (lastUpdateTimestamp h <? t). }
  destruct (handleLog t message h) as [[m|e] h1]; cbn in Hn, Ho, Hc, Hp;
    [|done].
  destruct (IH h1) as (-> & -> & -> & ->). done.
Qed.

Lemma history_files_fields files : forall h,
  let h' := snd (history_files files h) in
  notifyDisconnect h' = notifyDisconnect h
  /\ onlineCount h' = onlineCount h
  /\ bot_channel h' = bot_channel h
  /\ presences h' = presences h.
Proof.
  induction files as [|f files IH]; intros h; [done|]. cbn zeta.
  cbn [history_files]. unfold bind.
  pose proof (history_lines_fields (lines f) h) as (Hn & Ho & Hc & Hp).
  destruct (history_lines (lines f) h) as [[[]|e] h1]; cbn in Hn, Ho, Hc, Hp;
    [|done].
  destruct (IH h1) as (-> & -> & -> & ->). done.
Qed.

Lemma loadHistory_fields files h :
  let h' := snd (loadHistory files h) in
  notifyDisconnect h' = notifyDisconnect h
  /\ onlineCount h' = onlineCount h
  /\ bot_channel h' = bot_channel h
  /\ presences h' = presences h.
Proof.
  cbn zeta. unfold loadHistory. run. unfold bind, perform, modify.
  pose proof (history_files_fields (sort_by_mtime files)
                (add_effect (Log INFO "Loading user history...") h))
    as (Hn & Ho & Hc & Hp).
  by destruct (history_files _ _) as [[[]|e] h1].
Qed.

(** X18.  However the history load ends, [__init__] leaves the watermark
    at the time of the start, has sent nothing and set no presence, and
    has no online count stored; disconnects are notified exactly when
    the variable [DISCONNECTS] is unset or is the very string [True]. *)
Theorem init_state now env channel files :
  let h := snd (init now env channel files) in
  lastUpdateTimestamp h = now
  /\ sent h = []
  /\ presences h = []
  /\ onlineCount h = None
  /\ bot_channel h = channel
  /\ (notifyDisconnect h = true <-> env = None \/ env = Some "True").
Proof.
  cbn zeta. unfold init, bind, modify.
  set (h0 := new_UserHandler now env channel).
  pose proof (loadHistory_fields files h0) as (Hn & Ho & Hc & Hp).
  pose proof (history_files_spec (sort_by_mtime files)
                (add_effect (Log INFO "Loading user history...") h0))
    as (Hw & Hs & _).
  assert (Hws : lastUpdateTimestamp (snd (loadHistory files h0)) = now
                /\ sent (snd (loadHistory files h0)) = []).
  { unfold loadHistory. run. unfold bind, perform, modify.
    by destruct (history_files _ _) as [[[]|e] h1]. }
  destruct Hws as [Hw' Hs'].
  assert (Henv : notifyDisconnect h0 = true <-> env = None \/ env = Some "True").
  { subst h0. cbn. destruct env as [v|]; cbn.
    - rewrite String.eqb_eq. split; [intros ->; by right|].
      by intros [?|[= ->]].
    - split; [by left|done]. }
  destruct (loadHistory files h0) as [[[]|e] h1];
    cbn in Hn, Ho, Hc, Hp, Hw', Hs' |- *;
    rewrite Hn; repeat split; try done; try apply Henv.
Qed.

Lemma init_state_witness :
  notifyDisconnect (snd (init (at_10h 0) None true
                           [mkFile 0 [alice_connects]])) = true.
Proof.
  apply (proj2 (proj2 (proj2 (proj2 (proj2
           (init_state (at_10h 0) None true [mkFile 0 [alice_connects]])))))).
  by left.
Defined.

(* ===================================================================== *)
(** ** What the history leaves in the store, and which file a cycle reads *)
(* ===================================================================== *)

Lemma accept_guarded b t loc b' t' loc' u :
  accept b t loc (guarded b' t' loc' u) = accept b t loc u.
Proof. unfold guarded. by destruct (lastSeen u <? t'). Qed.

(** An entity that was last seen at [t] stays as it is through messages
    none of which is later than [t] for it. *)
Lemma users_after_all_stable n t evs : forall us u,
  (forall e b' x' y',
      In e evs -> classify (snd e) = Event b' n x' y' -> fst e <= t) ->
  us !! n = Some u -> lastSeen u = t ->
  users_after_all evs us !! n = Some u.
Proof.
  unfold users_after_all.
  induction evs as [|e evs IH]; intros us u Hle Hu Ht; [done|].
  cbn [fold_left]. apply IH; [intros; eapply Hle; [by right|done] | |done].
  destruct (classify (snd e)) as [b' n' x' y'| |] eqn:Hc; cbn; try done.
  destruct (decide (n' = n)) as [->|Hne]; [|by rewrite lookup_insert_ne].
  rewrite lookup_insert_eq. unfold entity, guarded. rewrite Hu. cbn.
  specialize (Hle e b' x' y' ltac:(by left) Hc).
  by destruct (Z.ltb_spec (lastSeen u) (fst e)); [lia|].
Qed.

(** The entity of the latest message that names it ends in the state of
    that message. *)
Lemma users_after_all_latest n t b x y evs : forall us,
  (forall e b' x' y',
      In e evs -> classify (snd e) = Event b' n x' y' ->
      fst e <= t /\ (fst e = t -> b' = b /\ x' = x /\ y' = y)) ->
  (exists message, In (t, message) evs /\ classify message = Event b n x y) ->
  lastSeen (entity n us) < t ->
  users_after_all evs us !! n
  = Some (accept b t (CStr x, CStr y) (entity n us)).
Proof.
  induction evs as [|e evs IH]; intros us Hle (message & Hin & Hc) Hlt;
    [done|].
  assert (Hrest : forall e0 b' x' y',
             In e0 evs -> classify (snd e0) = Event b' n x' y' ->
             fst e0 <= t /\ (fst e0 = t -> b' = b /\ x' = x /\ y' = y)).
  { intros; eapply Hle; [by right|done]. }
  change (users_after_all (e :: evs) us)
    with (users_after_all evs (users_after (fst e) (classify (snd e)) us)).
  destruct (classify (snd e)) as [b' n' x' y'| |] eqn:Hce.
  - destruct (decide (n' = n)) as [->|Hne].
    + destruct (Hle e b' x' y' ltac:(by left) Hce) as [Hte Hsame].
      destruct (decide (fst e = t)) as [Heq|Hneq].
      * destruct (Hsame Heq) as (-> & -> & ->).
        apply users_after_all_stable with (t := t).
        -- intros e0 b0 x0 y0 H0 Hc0. by apply (Hrest e0 b0 x0 y0).
        -- cbn. rewrite lookup_insert_eq, Heq. unfold guarded.
           by destruct (Z.ltb_spec (lastSeen (entity n us)) t); [|lia].
        -- done.
      * rewrite IH; [| done | |].
        -- cbn. by rewrite entity_insert_eq, accept_guarded.
        -- exists message. split; [|done].
           destruct Hin as [->|Hin]; [|done]. by cbn in Hneq.
        -- cbn. rewrite entity_insert_eq. unfold guarded.
           destruct (lastSeen (entity n us) <? fst e); cbn; lia.
    + rewrite IH; [| done | |].
      * cbn. by rewrite entity_insert_ne.
      * exists message. split; [|done].
        destruct Hin as [->|Hin]; [|done].
        cbn in Hce. rewrite Hc in Hce. by injection Hce as _ <- _ _.
      * cbn. by rewrite entity_insert_ne.
  - cbn. apply IH; [done| |done]. exists message. split; [|done].
    destruct Hin as [->|Hin]; [|done]. cbn in Hce. congruence.
  - cbn. apply IH; [done| |done]. exists message. split; [|done].
    destruct Hin as [->|Hin]; [|done]. cbn in Hce. congruence.
Qed.

Lemma users_after_all_app evs1 evs2 us :
  users_after_all (evs1 ++ evs2) us
  = users_after_all evs2 (users_after_all evs1 us).
Proof. unfold users_after_all. apply fold_left_app. Qed.

(** The lines of the files that [history_files] returns on, each with
    what [splitLine] makes of it, and the store they leave. *)
Lemma history_files_events files : forall h,
  fst (history_files files h) = Ok tt ->
  exists evs,
    Forall2 (fun line e => splitLine line = Ok e)
            (concat (map lines files)) evs
    /\ Forall (fun e => classify (snd e) <> Unmatched) evs
    /\ users (snd (history_files files h)) = users_after_all evs (users h).
Proof.
  induction files as [|f files IH]; intros h Hok.
  - exists []. repeat split; constructor.
  - cbn [history_files] in Hok |- *. unfold bind in Hok |- *.
    destruct (history_lines_ok (lines f) h) as (evs1 & Hsplit & Hall).
    { by destruct (history_lines (lines f) h) as [[[]|e] h1]. }
    destruct (history_lines_users (lines f) evs1 Hsplit Hall h) as [Hr Hu].
    destruct (history_lines (lines f) h) as [r h1]. cbn in Hr, Hu. subst r.
    destruct (IH h1 Hok) as (evs2 & Hsplit2 & Hall2 & Hu2).
    exists (evs1 ++ evs2)%list. cbn [map concat]. split; [|split].
    + by apply Forall2_app.
    + by apply Forall_app.
    + by rewrite Hu2, Hu, users_after_all_app.
Qed.

Lemma split_lines_In ls evs :
  Forall2 (fun line e => splitLine line = Ok e) ls evs ->
  (forall line e, In line ls -> splitLine line = Ok e -> In e evs)
  /\ (forall e, In e evs -> exists line, In line ls /\ splitLine line = Ok e).
Proof.
  induction 1 as [|line e ls evs Hs _ [IH1 IH2]]; split.
  - intros line e [].
  - intros e [].
  - intros line' e' [<-|Hin] Hs'.
    + left. congruence.
    + right. by eapply IH1.
  - intros e' [<-|Hin].
    + exists line. split; [by left|done].
    + destruct (IH2 e' Hin) as (line' & ? & ?). exists line'.
      split; [by right|done].
Qed.

Lemma lines_of_files_In files line :
  In line (concat (map lines files))
  <-> exists f, In f files /\ In line (lines f).
Proof.
  rewrite in_concat. split.
  - intros (ls & (f & <- & Hf)%in_map_iff & Hl). eauto.
  - intros (f & Hf & Hl). exists (lines f). split; [|done].
    apply in_map_iff. eauto.
Qed.

(** C7.  History replay leaves the watermark as it was and sends nothing
    to the channel, whatever the files hold and whether or not it runs to
    the end.  When it returns it has populated the store: every connect
    or disconnect line of every file has its entity in the store, last
    seen at the time of the line or later; and an entity whose latest
    line is later than its former [lastSeen] holds the state of that
    line: online for a connect and offline for a disconnect, [lastSeen]
    the timestamp of the line, [lastLocation] its two matched
    coordinates. *)
Theorem C7_history_replay files h :
  let r := loadHistory files h in
  lastUpdateTimestamp (snd r) = lastUpdateTimestamp h
  /\ sent (snd r) = sent h
  /\ (fst r = Ok tt ->
      forall f line t message b n x y,
        In f files -> In line (lines f) ->
        splitLine line = Ok (t, message) ->
        classify message = Event b n x y ->
        (exists u, users (snd r) !! n = Some u /\ t <= lastSeen u)
        /\ (lastSeen (entity n (users h)) < t ->
            (forall f' line' t' message' b' x' y',
                In f' files -> In line' (lines f') ->
                splitLine line' = Ok (t', message') ->
                classify message' = Event b' n x' y' ->
                t' <= t /\ (t' = t -> b' = b /\ x' = x /\ y' = y)) ->
            exists u, users (snd r) !! n = Some u
                      /\ online u = b /\ lastSeen u = t
                      /\ lastLocation u = (CStr x, CStr y))).
Proof.
  cbn zeta. unfold loadHistory. run. unfold bind, perform, modify.
  set (h0 := add_effect _ h).
  pose proof (history_files_spec (sort_by_mtime files) h0)
    as (Hw & Hsent & _ & _).
  pose proof (history_files_events (sort_by_mtime files) h0) as Hev.
  destruct (history_files (sort_by_mtime files) h0) as [[[]|e] h1];
    cbn in Hw, Hsent, Hev; cbn; (split; [done|]); (split; [done|]);
    [|done].
  intros _ f line t message b n x y Hf Hl Hs Hc.
  destruct (Hev eq_refl) as (evs & Hsplit & _ & Hu).
  destruct (split_lines_In _ _ Hsplit) as [Hin1 Hin2].
  assert (Hmem : In (t, message) evs).
  { eapply Hin1; [|done]. apply lines_of_files_In. exists f.
    split; [by apply sort_by_mtime_In|done]. }
  rewrite Hu. split.
  - pose proof (users_after_all_covered evs (users h)) as Hcov.
    rewrite List.Forall_forall in Hcov. specialize (Hcov _ Hmem).
    cbn in Hcov. by rewrite Hc in Hcov.
  - intros Hlt Hlatest.
    rewrite (users_after_all_latest n t b x y evs (users h)).
    + eexists. split; [done|]. by cbn.
    + intros [t' message'] b' x' y' Hin' Hc'. cbn in Hc' |- *.
      destruct (Hin2 _ Hin')
        as (line' & (f' & Hf' & Hl')%lines_of_files_In & Hs').
      eapply (Hlatest f' line' t' message'); try done.
      by apply sort_by_mtime_In.
    + by exists message.
    + done.
Qed.

Lemma C7_history_replay_witness :
  let older := mkFile 1 [alice_connects; "[01-01-24 10:01:00.5]tick";
                         alice_disconnects] in
  let newer := mkFile 2 ["[02-01-24 08:00:00.000]" ++ quoted "Bob"
                         ++ " fully connected (9,9,0)"] in
  let r := loadHistory [newer; older] (new_UserHandler 0 None true) in
  exists u, users (snd r) !! "Alice" = Some u
            /\ online u = false /\ lastSeen u = at_10h 5
            /\ lastLocation u = (CStr "6", CStr "6").
Proof.
  intros older newer r.
  pose proof (proj2 (proj2 (C7_history_replay [newer; older]
                              (new_UserHandler 0 None true)))) as Hev.
  cbn zeta in Hev. specialize (Hev ltac:(by vm_compute)).
  destruct (Hev older alice_disconnects (at_10h 5)
              (quoted "Alice" ++ " disconnected (6,6,0)")
              false "Alice" "6" "6") as [_ Hstate].
  - right. by left.
  - right. right. by left.
  - by vm_compute.
  - by vm_compute.
  - apply Hstate; [by vm_compute|].
    intros f' line' t' message' b' x' y' Hf' Hl' Hs' Hc'.
    destruct Hf' as [<-|[<-|[]]]; cbn in Hl'.
    + destruct Hl' as [<-|[]].
      vm_compute in Hs'. injection Hs' as <- <-. by vm_compute in Hc'.
    + destruct Hl' as [<-|[<-|[<-|[]]]];
        vm_compute in Hs'; injection Hs' as <- <-; vm_compute in Hc';
        try done; injection Hc' as <- <- <-; by vm_compute.
Defined.

(** C8 as stated does not hold of the location: the code stores the two
    matched groups as they are, the strings of digits, and never the
    numbers; after the scenario Alice's [lastLocation] is not the pair of
    integers 6 and 6. *)
Lemma C8_counterexample :
  let f := mkFile 0 [alice_connects; alice_disconnects] in
  let r := loadHistory [f] (new_UserHandler 0 None true) in
  fst r = Ok tt
  /\ (lastLocation <$> users (snd r) !! "Alice") = Some (CStr "6", CStr "6")
  /\ (lastLocation <$> users (snd r) !! "Alice") <> Some (CInt 6, CInt 6).
Proof. by vm_compute. Qed.

(** The scan of [update] touches no entity that none of its lines
    names. *)
Lemma update_loop_other_entities n ls : forall nt h,
  (forall line t message b x y,
      In line ls -> splitLine line = Ok (t, message) ->
      classify message <> Event b n x y) ->
  users (snd (update_loop ls nt h)) !! n = users h !! n.
Proof.
  induction ls as [|line ls IH]; intros nt h Hno; [done|].
  destruct (splitLine line) as [[t message]|e] eqn:Hs.
  - rewrite (update_loop_step _ _ _ _ _ _ Hs).
    destruct (lastUpdateTimestamp h <? t); [|done].
    pose proof (handleLog_users t message h) as Hu.
    destruct (handleLog t message h) as [[m|e] h1]; cbn in Hu.
    + rewrite IH by (intros; eapply Hno; [by right|done]).
      rewrite (proj2 (notify_frame m h1)), Hu.
      destruct (classify message) as [b n' x y| |] eqn:Hc; cbn; try done.
      apply lookup_insert_ne. intros ->.
      by apply (Hno line t message b x y ltac:(by left) Hs).
    + cbn. rewrite Hu.
      destruct (classify message) as [b n' x y| |] eqn:Hc; cbn; try done.
      apply lookup_insert_ne. intros ->.
      by apply (Hno line t message b x y ltac:(by left) Hs).
  - by rewrite (update_loop_raise _ _ _ _ _ Hs).
Qed.

(** C10.  A cycle reads the first file of the match list and no other.
    It reads the first file, from its end: the last line of that file,
    when it is an event later than the watermark and than the entity's
    [lastSeen], is in the store after the cycle, and when it is the only
    line the entity holds its state and the watermark its timestamp.
    It reads no other file: the files after the first change nothing of
    what the cycle does, and an entity that no line of the first file
    names is as it was, whatever the other files say of it.  With no
    file matched the cycle reads no line; it only refreshes the
    presence, so the store, the watermark and the messages sent stay as
    they were. *)
Theorem C10_first_file_only :
  (forall f rest h pre line t message b n x y,
      lines f = (pre ++ [line])%list ->
      splitLine line = Ok (t, message) ->
      classify message = Event b n x y ->
      lastUpdateTimestamp h < t ->
      lastSeen (entity n (users h)) < t ->
      let r := update (f :: rest) h in
      (exists u, users (snd r) !! n = Some u /\ t <= lastSeen u)
      /\ (pre = [] ->
          fst r = Ok tt
          /\ lastUpdateTimestamp (snd r) = t
          /\ exists u, users (snd r) !! n = Some u
                       /\ online u = b /\ lastSeen u = t
                       /\ lastLocation u = (CStr x, CStr y)))
  /\ (forall f rest h, update (f :: rest) h = update [f] h)
  /\ (forall f rest h n,
        (forall line t message b x y,
            In line (lines f) -> splitLine line = Ok (t, message) ->
            classify message <> Event b n x y) ->
        users (snd (update (f :: rest) h)) !! n = users h !! n)
  /\ (forall h,
        update [] h = refresh_presence h
        /\ fst (update [] h) = Ok tt
        /\ users (snd (update [] h)) = users h
        /\ lastUpdateTimestamp (snd (update [] h)) = lastUpdateTimestamp h
        /\ sent (snd (update [] h)) = sent h).
Proof.
  split; [|split; [done|split]].
  - intros f rest h pre line t message b n x y Hf Hs Hc Hw Hseen. cbn zeta.
    rewrite update_cases. unfold FileReadBackwards.
    rewrite Hf, rev_app_distr. cbn [rev app].
    rewrite (update_loop_step _ _ _ _ _ _ Hs).
    destruct (Z.ltb_spec (lastUpdateTimestamp h) t); [|lia].
    destruct (handleLog_returns t message h) as [m Hr]; [by rewrite Hc|].
    pose proof (handleLog_users t message h) as Hu.
    pose proof (handleLog_frame t message h) as (Hwm & _).
    destruct (handleLog t message h) as [r' h1]. cbn in Hr, Hu, Hwm. subst r'.
    assert (Hn : users (notify m h1) !! n
                 = Some (accept b t (CStr x, CStr y) (entity n (users h)))).
    { rewrite (proj2 (notify_frame m h1)), Hu, Hc. cbn.
      rewrite lookup_insert_eq. unfold guarded.
      by destruct (Z.ltb_spec (lastSeen (entity n (users h))) t); [|lia]. }
    split.
    + pose proof (update_loop_kept advances advances_refl advances_trans
                    advances_step (rev pre)
                    (Z.max (lastUpdateTimestamp h) t) (notify m h1)) as Hadv.
      destruct (Hadv n _ Hn) as (u' & Hu' & Hle).
      assert (Hfinal : forall h2,
                users h2 = users (snd (update_loop (rev pre)
                                         (Z.max (lastUpdateTimestamp h) t)
                                         (notify m h1))) ->
                exists u, users h2 !! n = Some u /\ t <= lastSeen u).
      { intros h2 ->. exists u'. split; [done|].
        destruct Hle as [->|Hle]; cbn in *; lia. }
      destruct (update_loop (rev pre) _ (notify m h1)) as [[r|e] h2].
      * apply Hfinal.
        by rewrite (proj1 (proj2 (refresh_presence_frame _))).
      * by apply Hfinal.
    + intros ->. cbn [rev update_loop]. unfold ret.
      destruct (refresh_presence_frame
                  (set_lastUpdateTimestamp (Z.max (lastUpdateTimestamp h) t)
                     (notify m h1))) as (-> & -> & -> & _).
      cbn. split; [done|]. split; [lia|].
      eexists. split; [exact Hn|]. by cbn.
  - intros f rest h n Hno. rewrite update_cases.
    pose proof (update_loop_other_entities n (FileReadBackwards f)
                  (lastUpdateTimestamp h) h) as Hother.
    destruct (update_loop _ _ h) as [[r|e] h1]; cbn in Hother.
    + rewrite (proj1 (proj2 (refresh_presence_frame _))). cbn.
      apply Hother. intros line t message b x y Hin.
      apply Hno. unfold FileReadBackwards in Hin. by apply in_rev.
    + apply Hother. intros line t message b x y Hin.
      apply Hno. unfold FileReadBackwards in Hin. by apply in_rev.
  - intros h.
    assert (Hu : update [] h = refresh_presence h) by done.
    rewrite Hu. split; [done|]. apply refresh_presence_frame.
Qed.

Lemma C10_first_file_only_witness :
  let first := mkFile 0 [alice_disconnects] in
  let other := mkFile 0 ["[01-01-24 10:07:00.000]" ++ quoted "Bob"
                         ++ " fully connected (9,9,0)"] in
  let r := update [first; other] (new_UserHandler (at_10h 2) None true) in
  (exists u, users (snd r) !! "Alice" = Some u
             /\ online u = false /\ lastSeen u = at_10h 5
             /\ lastLocation u = (CStr "6", CStr "6"))
  /\ lastUpdateTimestamp (snd r) = at_10h 5
  /\ users (snd r) !! "Bob" = None.
Proof.
  intros first other r.
  destruct (proj1 C10_first_file_only first [other]
              (new_UserHandler (at_10h 2) None true) [] alice_disconnects
              (at_10h 5) (quoted "Alice" ++ " disconnected (6,6,0)")
              false "Alice" "6" "6") as [_ Hone]; try by vm_compute.
  destruct (Hone eq_refl) as (_ & Hw & Hu).
  split; [exact Hu|]. split; [exact Hw|].
  apply (proj1 (proj2 (proj2 C10_first_file_only)) first [other]
           (new_UserHandler (at_10h 2) None true) "Bob").
  intros line t message b x y [<-|[]] Hs.
  vm_compute in Hs. injection Hs as <- <-. by vm_compute.
Defined.


